(** * Podcast platform server: engagement statistics and asset retrieval

    A shallow embedding of [src/server.js] (the Express application backed by
    Mongoose models [User], [Video] and [Stats]) and the properties of its
    route handlers.

    Conventions of the embedding.
    - A Mongoose collection is the list of its documents in insertion order.
    - JavaScript [Number] fields hold integers; they are modelled in [Z]
      (exact for magnitudes below 2^53).
    - A JavaScript string is a Rocq [string]: a sequence of code units, here
      restricted to the range 0..255.
    - A [Date] is its time value, the milliseconds since the epoch, in [Z].
    - Every [await] on the database is assumed to be answered: the handlers'
      failures are the ones the code itself provokes (validation, duplicate
      keys, casts, a [null] document).
    - Values produced outside the repository (the clock, the bcrypt digest,
      the identifier generated for a new document, the file parsed by multer)
      are inputs of the handler that consumes them. *)

From Stdlib Require Import ZArith String Ascii Lia Hexadecimal HexadecimalString.
From stdpp Require Import base decidable option numbers list strings.

Open Scope string_scope.
Open Scope list_scope.
Open Scope Z_scope.

(** ** Regular expressions, for [emailRegex.test] *)

Module Regex.

Inductive t : Type :=
| Void
| Eps
| Class (p : ascii -> bool)
| Cat (r s : t)
| Alt (r s : t)
| Plus (r : t).

Fixpoint nullable (r : t) : bool :=
  match r with
  | Void => false
  | Eps => true
  | Class _ => false
  | Cat r s => nullable r && nullable s
  | Alt r s => nullable r || nullable s
  | Plus r => nullable r
  end.

(** Brzozowski derivative; [Plus r] is [r] followed by zero or more [r]. *)
Fixpoint deriv (c : ascii) (r : t) : t :=
  match r with
  | Void | Eps => Void
  | Class p => if p c then Eps else Void
  | Cat r s =>
      if nullable r then Alt (Cat (deriv c r) s) (deriv c s)
      else Cat (deriv c r) s
  | Alt r s => Alt (deriv c r) (deriv c s)
  | Plus r => Cat (deriv c r) (Alt Eps (Plus r))
  end.

(** [test] of a pattern anchored by [^] and [$]: the whole string matches. *)
Fixpoint test (r : t) (s : string) : bool :=
  match s with
  | EmptyString => nullable r
  | String c s' => test (deriv c r) s'
  end.

Definition chr (a : ascii) : t := Class (Ascii.eqb a).

End Regex.

(** The class [\s] on code units below 256: TAB, LF, VT, FF, CR, SPACE, NBSP. *)
Definition js_space (c : ascii) : bool :=
  let n := nat_of_ascii c in
  ((9 <=? n)%nat && (n <=? 13)%nat) || (n =? 32)%nat || (n =? 160)%nat.

(** The class [[^\s@]]. *)
Definition not_space_at (c : ascii) : bool :=
  negb (js_space c) && negb (Ascii.eqb c "@").

(** [/^[^\s@]+@[^\s@]+\.[^\s@]+$/] *)
Definition emailRegex : Regex.t :=
  Regex.Cat (Regex.Plus (Regex.Class not_space_at))
    (Regex.Cat (Regex.chr "@")
       (Regex.Cat (Regex.Plus (Regex.Class not_space_at))
          (Regex.Cat (Regex.chr ".")
             (Regex.Plus (Regex.Class not_space_at))))).

Definition passwordMinLength : nat := 6.

Definition validateInput (email password : string) : bool :=
  Regex.test emailRegex email && (passwordMinLength <=? String.length password)%nat.

(** ** Dates *)

Definition msPerDay : Z := 86400000.

(** [d.toISOString().split('T')[0]]: the UTC calendar date of a time value.
    Two time values have the same date string exactly when they fall in the
    same UTC day, so the date string is represented by the day number. *)
Definition isoDate (t : Z) : Z := t / msPerDay.

(** ** Binary payloads *)

Definition Buffer : Type := list Byte.byte.

(** What multer hands to the upload handler as [req.file]. *)
Record File : Type := {
  originalname : string;
  mimetype : string;
  buffer : Buffer
}.

(** One element of [Stats.signupHistory]. *)
Record HistoryEntry : Type := {
  date : Z;
  count : Z
}.

#[global] Instance HistoryEntry_eq_dec : EqDecision HistoryEntry.
Proof. solve_decision. Defined.

(** [statsSchema] *)
Record Stats : Type := {
  totalSignups : Z;
  totalViews : Z;
  signupHistory : list HistoryEntry
}.

Definition emptyStats : Stats :=
  {| totalSignups := 0; totalViews := 0; signupHistory := [] |}.

(** ** An identifier type: hexadecimal strings

    Identifiers written in lower-case hexadecimal digits; the cast also
    accepts upper-case digits and rejects everything else. This instance of
    the identifier interface serves for the examples. *)

Module HexId.

Definition t : Type := Hexadecimal.uint.

#[global] Instance eq_dec : EqDecision t.
Proof. solve_decision. Defined.

Definition toString (o : t) : string :=
  HexadecimalString.NilEmpty.string_of_uint o.

Definition lower (c : ascii) : ascii :=
  match c with
  | "A" => "a" | "B" => "b" | "C" => "c"
  | "D" => "d" | "E" => "e" | "F" => "f"
  | _ => c
  end%char.

Fixpoint lowercase (s : string) : string :=
  match s with
  | EmptyString => EmptyString
  | String c s' => String (lower c) (lowercase s')
  end.

Definition cast (s : string) : option t :=
  HexadecimalString.NilEmpty.uint_of_string (lowercase s).

End HexId.

(** ** The application, over the identifier type of the driver

    [ObjectId] is the type of document identifiers. A route parameter is a
    string: [castObjectId] is the cast Mongoose applies to it where the schema
    expects an identifier (it fails on a malformed string), and [oidToString]
    is [id.toString()]. The one fact used about them is that the string of an
    identifier casts back to that identifier. *)

Section Server.

Context {ObjectId : Type} `{EqDecision ObjectId}.
Variable oidToString : ObjectId -> string.
Variable castObjectId : string -> option ObjectId.
Hypothesis cast_toString : forall o, castObjectId (oidToString o) = Some o.

(** [bcrypt.compare(password, digest)] *)
Variable bcrypt_compare : string -> string -> bool.

(** *** Documents *)

(** [userSchema] *)
Record User : Type := {
  email : string;
  password : string;
  role : string;
  favorites : list ObjectId
}.

(** [videoSchema], with the [_id] every document has. *)
Record Video : Type := {
  _id : ObjectId;
  podcastName : string;
  category : string;
  filename : string;
  contentType : string;
  video : Buffer;
  views : Z
}.

(** The three collections. [Stats.findOne()] returns the first document of
    its collection, and only [initializeStats] ever creates one: the
    collection is represented by that document, if any. *)
Record DB : Type := {
  users : list User;
  videos : list Video;
  stats : option Stats
}.

Definition set_users (us : list User) (db : DB) : DB :=
  {| users := us; videos := videos db; stats := stats db |}.
Definition set_videos (vs : list Video) (db : DB) : DB :=
  {| users := users db; videos := vs; stats := stats db |}.
Definition set_stats (st : option Stats) (db : DB) : DB :=
  {| users := users db; videos := videos db; stats := st |}.

(** [req.session.user] *)
Record SessionUser : Type := {
  s_email : string;
  s_role : string;
  s_favorites : option (list ObjectId)
}.

Definition Session : Type := option SessionUser.

(** *** Responses *)

Inductive JValue : Type :=
| JString (s : string)
| JNumber (n : Z)
| JObjectId (o : ObjectId)
| JBinary (b : Buffer).

(** A document as sent by [res.json]: its fields, in schema order. *)
Definition Doc : Type := list (string * JValue).

(** What a handler hands to Express: the value given to [res.json], the text
    given to [res.send], the pair given to [res.contentType] and [res.send]
    for a payload, or the path given to [res.sendFile]. *)
Inductive Body : Type :=
| JsonMessage (message : string)
| JsonRole (r : string)
| JsonFavorites (favs : list ObjectId)
| JsonSession (u : SessionUser)
| JsonDocs (docs : list Doc)
| JsonStats (st : option Stats)
| Text (s : string)
| Payload (ctype : string) (data : Buffer)
| SendFile (path : string).

(** A reply with its HTTP status, or [NoReply]: the handler's promise was
    rejected outside any [try], and Express sends nothing. *)
Inductive Response : Type :=
| Reply (status : nat) (body : Body)
| NoReply.

Definition Result : Type := Response * Session * DB.

(** *** Model operations *)

(** [User.findOne({ email })]: the first matching document and its position. *)
Definition User_findOne (e : string) (db : DB) : option (nat * User) :=
  list_find (fun u => email u = e) (users db).

(** [newUser.save()]: the schema validators ([required] rejects an empty
    string) and the unique index on [email]. *)
Definition User_insert (u : User) (db : DB) : option DB :=
  if bool_decide (email u <> "" /\ password u <> "" /\ role u <> "")
     && bool_decide (User_findOne (email u) db = None)
  then Some (set_users (users db ++ [u]) db)
  else None.

(** [Video.findById(id)] on a cast identifier. *)
Definition Video_findById (o : ObjectId) (db : DB) : option (nat * Video) :=
  list_find (fun v => _id v = o) (videos db).

(** [newVideo.save()]: [_id] is the primary key. *)
Definition Video_insert (v : Video) (db : DB) : option DB :=
  if bool_decide (Video_findById (_id v) db = None)
  then Some (set_videos (videos db ++ [v]) db)
  else None.

(** [initializeStats] *)
Definition initializeStats (db : DB) : DB :=
  match stats db with
  | None => set_stats (Some emptyStats) db
  | Some _ => db
  end.

(** *** POST /signup *)

(** [historyEntry.count += 1] *)
Definition bump (e : HistoryEntry) : HistoryEntry :=
  {| date := date e; count := count e + 1 |}.

(** Lines 106-113. [today_clock] is the clock read that gives [today],
    [push_clock] the one that dates a new entry. [find] returns the entry
    itself, so the increment is an update in place. *)
Definition updateHistory (today_clock push_clock : Z)
    (history : list HistoryEntry) : list HistoryEntry :=
  let today := isoDate today_clock in
  match list_find (fun entry => isoDate (date entry) = today) history with
  | Some (i, historyEntry) => <[i := bump historyEntry]> history
  | None => history ++ [{| date := push_clock; count := 1 |}]
  end.

(** Lines 103-113 on the document returned by [Stats.findOne()]. *)
Definition signupStats (today_clock push_clock : Z) (st : Stats) : Stats :=
  {| totalSignups := totalSignups st + 1;
     totalViews := totalViews st;
     signupHistory := updateHistory today_clock push_clock (signupHistory st) |}.

Definition post_signup (em pw rl : string) (hashedPassword : string)
    (today_clock push_clock : Z) (sess : Session) (db : DB) : Result :=
  if negb (validateInput em pw) then
    (Reply 400 (JsonMessage
       "Invalid email or password (must be at least 6 characters)."), sess, db)
  else
    let newUser :=
      {| email := em; password := hashedPassword; role := rl; favorites := [] |} in
    let failure :=
      Reply 500 (JsonMessage
        "Error creating user. This email might already be registered.") in
    match User_insert newUser db with
    | None => (failure, sess, db)
    | Some db1 =>
        match stats db1 with
        | None => (failure, sess, db1)
        | Some st =>
            (Reply 200 (JsonRole rl),
             Some {| s_email := em; s_role := rl; s_favorites := None |},
             set_stats (Some (signupStats today_clock push_clock st)) db1)
        end
    end.

(** *** POST /login and GET /account *)

Definition post_login (em pw : string) (sess : Session) (db : DB) : Result :=
  match User_findOne em db with
  | Some (_, user) =>
      if bcrypt_compare pw (password user) then
        (Reply 200 (JsonRole (role user)),
         Some {| s_email := em; s_role := role user;
                 s_favorites := Some (favorites user) |}, db)
      else (Reply 400 (JsonMessage "Invalid email or password."), sess, db)
  | None => (Reply 400 (JsonMessage "Invalid email or password."), sess, db)
  end.

Definition get_account (sess : Session) (db : DB) : Result :=
  match sess with
  | Some u => (Reply 200 (JsonSession u), sess, db)
  | None => (Reply 401 (Text "Not logged in"), sess, db)
  end.

(** *** POST /toggle-favorite/:videoId *)

(** [favorites.includes(videoId)] on a Mongoose array of identifiers: the
    string is compared with the string of each element. *)
Definition includes (videoId : string) (favs : list ObjectId) : bool :=
  bool_decide (Exists (fun id => oidToString id = videoId) favs).

(** Lines 166-172: the new array, or [None] when [push] cannot cast. *)
Definition toggle (videoId : string) (favs : list ObjectId)
    : option (list ObjectId) :=
  if includes videoId favs then
    Some (filter (fun id => oidToString id <> videoId) favs)
  else
    match castObjectId videoId with
    | Some o => Some (favs ++ [o])
    | None => None
    end.

Definition set_favorites (favs : list ObjectId) (u : User) : User :=
  {| email := email u; password := password u; role := role u;
     favorites := favs |}.

Definition post_toggle_favorite (videoId : string) (sess : Session) (db : DB)
    : Result :=
  match sess with
  | None =>
      (Reply 401 (JsonMessage "You need to be logged in to favorite videos."),
       sess, db)
  | Some su =>
      let userId := s_email su in
      let failure := Reply 500 (JsonMessage "Error updating favorites.") in
      match User_findOne userId db with
      | None => (failure, sess, db)
      | Some (i, user) =>
          match toggle videoId (favorites user) with
          | None => (failure, sess, db)
          | Some favs =>
              (Reply 200 (JsonFavorites favs),
               Some {| s_email := s_email su; s_role := s_role su;
                       s_favorites := Some favs |},
               set_users (<[i := set_favorites favs user]> (users db)) db)
          end
      end
  end.

(** *** POST /upload *)

(** The handler proper; [req.file] is what multer kept after its
    [fileFilter], and [newId] the identifier [new Video] generated. *)
Definition post_upload (name cat : string) (file : option File)
    (newId : ObjectId) (sess : Session) (db : DB) : Result :=
  match file with
  | None => (Reply 400 (JsonMessage "No file uploaded."), sess, db)
  | Some f =>
      let newVideo :=
        {| _id := newId; podcastName := name; category := cat;
           filename := originalname f; contentType := mimetype f;
           video := buffer f; views := 0 |} in
      match Video_insert newVideo db with
      | Some db' => (Reply 200 (JsonMessage "Upload successful!"), sess, db')
      | None =>
          (Reply 500 (JsonMessage "Error saving file to database."), sess, db)
      end
  end.

(** *** GET /videos and GET /videos/:category *)

(** The fields of a stored video document. *)
Definition toObject (v : Video) : Doc :=
  [ ("_id", JObjectId (_id v));
    ("podcastName", JString (podcastName v));
    ("category", JString (category v));
    ("filename", JString (filename v));
    ("contentType", JString (contentType v));
    ("video", JBinary (video v));
    ("views", JNumber (views v)) ].

(** The field names of a projection string, which separates them by spaces. *)
Fixpoint words_from (cur : string) (s : string) : list string :=
  match s with
  | EmptyString => if decide (cur = "") then [] else [cur]
  | String c s' =>
      if Ascii.eqb c " " then
        if decide (cur = "") then words_from "" s'
        else cur :: words_from "" s'
      else words_from (cur +:+ String c "") s'
  end.

Definition words (s : string) : list string := words_from "" s.

(** An inclusive projection keeps the named fields, and [_id]. *)
Definition project (projection : string) (d : Doc) : Doc :=
  filter (fun kv => kv.1 = "_id" \/ kv.1 ∈ words projection) d.

(** [Video.find(conditions, projection)]; the conditions of this program
    are [{}] ([None]) and [{ category }] ([Some category]). *)
Definition Video_find (conditions : option string) (projection : string)
    (db : DB) : list Doc :=
  let selected :=
    match conditions with
    | None => videos db
    | Some cat => filter (fun v => category v = cat) (videos db)
    end in
  map (fun v => project projection (toObject v)) selected.

Definition get_videos (sess : Session) (db : DB) : Result :=
  (Reply 200 (JsonDocs (Video_find None "filename podcastName _id" db)),
   sess, db).

Definition get_videos_category (cat : string) (sess : Session) (db : DB)
    : Result :=
  (Reply 200 (JsonDocs (Video_find (Some cat) "filename podcastName _id" db)),
   sess, db).

(** *** GET /video/:id *)

Definition set_views (n : Z) (v : Video) : Video :=
  {| _id := _id v; podcastName := podcastName v; category := category v;
     filename := filename v; contentType := contentType v;
     video := video v; views := n |}.

Definition set_totalViews (n : Z) (st : Stats) : Stats :=
  {| totalSignups := totalSignups st; totalViews := n;
     signupHistory := signupHistory st |}.

Definition get_video (videoId : string) (sess : Session) (db : DB) : Result :=
  let failure := Reply 500 (Text "Error retrieving video.") in
  match castObjectId videoId with
  | None => (failure, sess, db)
  | Some o =>
      match Video_findById o db with
      | None => (Reply 404 (Text "Video not found."), sess, db)
      | Some (i, v) =>
          let v' := set_views (views v + 1) v in
          let db1 := set_videos (<[i := v']> (videos db)) db in
          match stats db1 with
          | None => (failure, sess, db1)
          | Some st =>
              (Reply 200 (Payload (contentType v') (video v')), sess,
               set_stats (Some (set_totalViews (totalViews st + 1) st)) db1)
          end
      end
  end.

(** *** GET / and GET /stats *)

Definition get_home (sess : Session) (db : DB) : Result :=
  match stats db with
  | None => (NoReply, sess, db)
  | Some st =>
      (Reply 200 (SendFile "public/index.html"), sess,
       set_stats (Some (set_totalViews (totalViews st + 1) st)) db)
  end.

Definition get_stats (sess : Session) (db : DB) : Result :=
  (Reply 200 (JsonStats (stats db)), sess, db).

(** *** Requests and runs *)

Inductive Request : Type :=
| PostSignup (em pw rl hashedPassword : string) (today_clock push_clock : Z)
| PostLogin (em pw : string)
| GetAccount
| PostToggleFavorite (videoId : string)
| PostUpload (name cat : string) (file : option File) (newId : ObjectId)
| GetVideos
| GetVideosCategory (cat : string)
| GetVideo (videoId : string)
| GetHome
| GetStats.

Definition handle (rq : Request) (sess : Session) (db : DB) : Result :=
  match rq with
  | PostSignup em pw rl h t1 t2 => post_signup em pw rl h t1 t2 sess db
  | PostLogin em pw => post_login em pw sess db
  | GetAccount => get_account sess db
  | PostToggleFavorite videoId => post_toggle_favorite videoId sess db
  | PostUpload name cat file newId => post_upload name cat file newId sess db
  | GetVideos => get_videos sess db
  | GetVideosCategory cat => get_videos_category cat sess db
  | GetVideo videoId => get_video videoId sess db
  | GetHome => get_home sess db
  | GetStats => get_stats sess db
  end.

Definition response (r : Result) : Response := r.1.1.
Definition session (r : Result) : Session := r.1.2.
Definition database (r : Result) : DB := r.2.

(** Requests served one after the other, each with the session its client
    presents; the responses are collected in order. *)
Fixpoint run (rqs : list (Request * Session)) (db : DB) : list Response * DB :=
  match rqs with
  | [] => ([], db)
  | (rq, sess) :: rest =>
      let r := handle rq sess db in
      let out := run rest (database r) in
      (response r :: out.1, out.2)
  end.

(** The clock does not run backwards: every read is at or after the
    previous one. (A signup that fails before it reads the clock carries
    reads it does not use; they are taken in order as well.) *)
Fixpoint clock_ok (now : Z) (rqs : list (Request * Session)) : Prop :=
  match rqs with
  | [] => True
  | (PostSignup _ _ _ _ t1 t2, _) :: rest =>
      now <= t1 /\ t1 <= t2 /\ clock_ok t2 rest
  | _ :: rest => clock_ok now rest
  end.

Definition ok (r : Response) : bool :=
  match r with
  | Reply 200 _ => true
  | _ => false
  end.

(** *** GET /video/:id, one database operation at a time

    Between two [await]s of a handler the other handlers may run. A task is
    a call of the handler suspended at an [await]; it holds the documents
    the call has read so far. Resuming it performs the awaited database
    operation and the code up to the next [await]. *)

Inductive ViewTask : Type :=
| AwaitFindById (videoId : string)
| AwaitVideoSave (v : Video)
| AwaitStatsFindOne (v : Video)
| AwaitStatsSave (v : Video) (st : Stats)
| Finished (r : Response).

(** [video.save()] after [video.views += 1]: the modified path, [views], is
    set on the stored document that has the [_id] of [v]. *)
Definition Video_save_views (v : Video) (db : DB) : DB :=
  match Video_findById (_id v) db with
  | Some (i, stored) =>
      set_videos (<[i := set_views (views v) stored]> (videos db)) db
  | None => db
  end.

(** [stats.save()] after [stats.totalViews += 1]: the modified path,
    [totalViews], is set on the stored document. *)
Definition Stats_save_totalViews (st : Stats) (db : DB) : DB :=
  set_stats (set_totalViews (totalViews st) <$> stats db) db.

Definition resume (t : ViewTask) (db : DB) : ViewTask * DB :=
  let failure := Reply 500 (Text "Error retrieving video.") in
  match t with
  | AwaitFindById videoId =>
      match castObjectId videoId with
      | None => (Finished failure, db)
      | Some o =>
          match Video_findById o db with
          | None => (Finished (Reply 404 (Text "Video not found.")), db)
          | Some (_, v) => (AwaitVideoSave (set_views (views v + 1) v), db)
          end
      end
  | AwaitVideoSave v => (AwaitStatsFindOne v, Video_save_views v db)
  | AwaitStatsFindOne v =>
      match stats db with
      | None => (Finished failure, db)
      | Some st =>
          (AwaitStatsSave v (set_totalViews (totalViews st + 1) st), db)
      end
  | AwaitStatsSave v st =>
      (Finished (Reply 200 (Payload (contentType v) (video v))),
       Stats_save_totalViews st db)
  | Finished r => (Finished r, db)
  end.

(** A schedule names, step by step, the task that is resumed. *)
Fixpoint interleave (schedule : list nat) (tasks : list ViewTask) (db : DB)
    : list ViewTask * DB :=
  match schedule with
  | [] => (tasks, db)
  | i :: rest =>
      match tasks !! i with
      | Some t =>
          let r := resume t db in
          interleave rest (<[i := r.1]> tasks) r.2
      | None => interleave rest tasks db
      end
  end.

(** The view counter of the video with identifier [o]. *)
Definition viewsOf (o : ObjectId) (db : DB) : option Z :=
  (fun p => views p.2) <$> Video_findById o db.

(** *** Vocabulary of the properties *)

(** The favorites of the user registered under an email, if any. *)
Definition favoritesOf (e : string) (db : DB) : option (list ObjectId) :=
  (fun p => favorites p.2) <$> User_findOne e db.

(** A toggle request and the next one: the session it leaves is the one the
    client presents again. *)
Definition toggleStep (videoId : string) (c : Session * DB) : Session * DB :=
  let r := post_toggle_favorite videoId c.1 c.2 in
  (session r, database r).

(** [k] toggle requests in a row. *)
Definition toggles (k : nat) (videoId : string) (sess : Session) (db : DB)
    : Session * DB :=
  Nat.iter k (toggleStep videoId) (sess, db).

(** The entries of a history that fall on calendar date [d]. *)
Definition entriesOn (d : Z) (history : list HistoryEntry) : list HistoryEntry :=
  filter (fun entry => isoDate (date entry) = d) history.

(** At most one entry per calendar date. *)
Definition oneEntryPerDate (history : list HistoryEntry) : Prop :=
  forall d, (length (entriesOn d history) <= 1)%nat.

(** The signup history held by the database. *)
Definition history (db : DB) : list HistoryEntry :=
  match stats db with
  | Some st => signupHistory st
  | None => []
  end.

(** No entry is dated after [now]. *)
Definition datedUpTo (now : Z) (h : list HistoryEntry) : Prop :=
  Forall (fun entry => date entry <= now) h.

(** The last clock read once a request has been served. *)
Definition clock_after (now : Z) (rq : Request) : Z :=
  match rq with
  | PostSignup _ _ _ _ _ push_clock => push_clock
  | _ => now
  end.

(** The requests that record a view. *)
Definition isView (rq : Request) : bool :=
  match rq with
  | GetVideo _ | GetHome => true
  | _ => false
  end.

(** The number of view-recording requests of a run that were answered 200. *)
Fixpoint successfulViews (rqs : list (Request * Session)) (db : DB) : Z :=
  match rqs with
  | [] => 0
  | (rq, sess) :: rest =>
      let r := handle rq sess db in
      (if isView rq && ok (response r) then 1 else 0)
      + successfulViews rest (database r)
  end.

(** The sum of the per-video counters. *)
Definition sumViews (db : DB) : Z :=
  foldr Z.add 0 (map views (videos db)).

(** The field names of a document. *)
Definition fieldNames (d : Doc) : list string := map fst d.

(** What the listing routes send for one video. *)
Definition listed (v : Video) : Doc :=
  [ ("_id", JObjectId (_id v));
    ("podcastName", JString (podcastName v));
    ("filename", JString (filename v)) ].

(** ** Properties *)

(** *** The signup histogram *)

Lemma updateHistory_nil t1 t2 :
  updateHistory t1 t2 [] = [{| date := t2; count := 1 |}].
Proof. reflexivity. Qed.

Lemma updateHistory_cons t1 t2 x h :
  updateHistory t1 t2 (x :: h) =
  if decide (isoDate (date x) = isoDate t1) then bump x :: h
  else x :: updateHistory t1 t2 h.
Proof.
  unfold updateHistory. cbn [list_find].
  destruct (decide (isoDate (date x) = isoDate t1)) as [Hx|Hx]; [reflexivity|].
  destruct (list_find _ h) as [[i e]|]; reflexivity.
Qed.

Lemma entriesOn_cons d x h :
  entriesOn d (x :: h) =
  if decide (isoDate (date x) = d) then x :: entriesOn d h else entriesOn d h.
Proof. unfold entriesOn. rewrite filter_cons. reflexivity. Qed.



(** What a successful signup did. *)
Lemma post_signup_ok em pw rl hp t1 t2 sess db :
  ok (response (post_signup em pw rl hp t1 t2 sess db)) = true ->
  exists st,
    stats db = Some st /\
    validateInput em pw = true /\
    User_findOne em db = None /\
    post_signup em pw rl hp t1 t2 sess db =
      (Reply 200 (JsonRole rl),
       Some {| s_email := em; s_role := rl; s_favorites := None |},
       {| users := users db ++
            [{| email := em; password := hp; role := rl; favorites := [] |}];
          videos := videos db;
          stats := Some (signupStats t1 t2 st) |}).
Proof.
  unfold post_signup, User_insert.
  destruct (validateInput em pw); cbn [negb]; [|discriminate].
  cbn [email password role].
  destruct (bool_decide (em <> "" /\ hp <> "" /\ rl <> "")); cbn [andb];
    [|discriminate].
  destruct (bool_decide (User_findOne em db = None)) eqn:Hfree; [|discriminate].
  apply bool_decide_eq_true in Hfree.
  cbn [stats set_users]. destruct (stats db) as [st|]; [|discriminate].
  intros _. exists st. repeat split; assumption.
Qed.

Lemma post_signup_ok_stats em pw rl hp t1 t2 sess db st :
  stats db = Some st ->
  ok (response (post_signup em pw rl hp t1 t2 sess db)) = true ->
  stats (database (post_signup em pw rl hp t1 t2 sess db)) =
    Some (signupStats t1 t2 st).
Proof.
  intros Hst Hok. destruct (post_signup_ok _ _ _ _ _ _ _ _ Hok)
    as (st0 & Hst0 & _ & _ & ->).
  cbn. congruence.
Qed.


(** *** Fetching a video *)

Lemma Video_findById_None o db :
  Forall (fun v => _id v <> o) (videos db) -> Video_findById o db = None.
Proof. intros Hall. unfold Video_findById. apply list_find_None. exact Hall. Qed.

(** C2. A request for a video identifier that no stored video bears is
    answered 404 "Video not found." and leaves the whole database, hence
    every Stats field and every view counter, as it was. The same holds of
    the database for any route parameter that names no stored video,
    including one that is not an identifier at all, which is answered 500. *)
Theorem fetchVideo_absent :
  (forall o sess db,
      Forall (fun v => _id v <> o) (videos db) ->
      get_video (oidToString o) sess db =
        (Reply 404 (Text "Video not found."), sess, db)) /\
  (forall videoId sess db,
      (forall o, castObjectId videoId = Some o ->
                 Forall (fun v => _id v <> o) (videos db)) ->
      database (get_video videoId sess db) = db /\
      stats (database (get_video videoId sess db)) = stats db /\
      map views (videos (database (get_video videoId sess db))) =
        map views (videos db) /\
      ok (response (get_video videoId sess db)) = false).
Proof.
  split.
  - intros o sess db Habsent. unfold get_video.
    rewrite cast_toString, (Video_findById_None _ _ Habsent). reflexivity.
  - intros videoId sess db Habsent. unfold get_video.
    destruct (castObjectId videoId) as [o|]; [|repeat split].
    rewrite (Video_findById_None _ _ (Habsent o eq_refl)). repeat split.
Qed.

(** *** Upload followed by fetch *)

Lemma Video_insert_fresh v db :
  Video_findById (_id v) db = None ->
  Video_insert v db = Some (set_videos (videos db ++ [v]) db).
Proof.
  intros Hfree. unfold Video_insert.
  rewrite bool_decide_eq_true_2 by exact Hfree. reflexivity.
Qed.

Lemma Video_insert_Some v db db' :
  Video_insert v db = Some db' ->
  Video_findById (_id v) db = None /\ db' = set_videos (videos db ++ [v]) db.
Proof.
  unfold Video_insert. destruct (bool_decide _) eqn:Hfree; [|discriminate].
  apply bool_decide_eq_true in Hfree. intros [= <-]. split; [exact Hfree|reflexivity].
Qed.

Lemma Video_findById_inserted v db :
  Video_findById (_id v) db = None ->
  Video_findById (_id v) (set_videos (videos db ++ [v]) db) =
    Some (length (videos db), v).
Proof.
  unfold Video_findById. intros Hfree. cbn [videos set_videos].
  rewrite list_find_app_r by exact Hfree. cbn [list_find].
  rewrite decide_True by reflexivity. reflexivity.
Qed.

(** C3. With the Stats document in place, an upload that succeeds followed
    at once by a fetch of the identifier given to the new document returns
    the submitted content type and the submitted payload, unchanged. An
    upload of a file under an identifier not yet in the store does
    succeed. *)
Theorem upload_then_fetch :
  (forall name cat f newId sess db,
      Forall (fun v => _id v <> newId) (videos db) ->
      ok (response (post_upload name cat (Some f) newId sess db)) = true) /\
  (forall name cat f newId sess sess' db st,
      stats db = Some st ->
      ok (response (post_upload name cat (Some f) newId sess db)) = true ->
      response
        (get_video (oidToString newId) sess'
           (database (post_upload name cat (Some f) newId sess db))) =
      Reply 200 (Payload (mimetype f) (buffer f))).
Proof.
  split.
  - intros name cat f newId sess db Hfresh. unfold post_upload.
    rewrite Video_insert_fresh by (apply Video_findById_None; exact Hfresh).
    reflexivity.
  - intros name cat f newId sess sess' db st Hst. unfold post_upload.
    destruct (Video_insert _ db) as [db'|] eqn:Hins; [|discriminate].
    intros _. apply Video_insert_Some in Hins as [Hfree ->].
    cbn [database snd]. unfold get_video.
    rewrite cast_toString.
    pose proof (Video_findById_inserted _ db Hfree) as Hfound.
    cbn [_id] in Hfound. rewrite Hfound.
    cbn [stats set_videos]. rewrite Hst. reflexivity.
Qed.

(** *** A signup that cannot be persisted *)

(** C10. When the new user cannot be saved (the email is already
    registered, or a required field is empty) the signup is answered 500 and
    the database is left as it was: [totalSignups] and the signup history
    are untouched. More generally, whenever a signup is not answered 200,
    the Stats document is the one before the call. *)
Theorem signup_failure_keeps_stats :
  (forall em pw rl hp t1 t2 sess db,
      validateInput em pw = true ->
      User_insert
        {| email := em; password := hp; role := rl; favorites := [] |} db
        = None ->
      post_signup em pw rl hp t1 t2 sess db =
        (Reply 500 (JsonMessage
           "Error creating user. This email might already be registered."),
         sess, db)) /\
  (forall em pw rl hp t1 t2 sess db u i,
      validateInput em pw = true ->
      User_findOne em db = Some (i, u) ->
      post_signup em pw rl hp t1 t2 sess db =
        (Reply 500 (JsonMessage
           "Error creating user. This email might already be registered."),
         sess, db)) /\
  (forall em pw rl hp t1 t2 sess db,
      ok (response (post_signup em pw rl hp t1 t2 sess db)) = false ->
      stats (database (post_signup em pw rl hp t1 t2 sess db)) = stats db).
Proof.
  split; [|split].
  - intros em pw rl hp t1 t2 sess db Hvalid Hins. unfold post_signup.
    rewrite Hvalid, Hins. reflexivity.
  - intros em pw rl hp t1 t2 sess db u i Hvalid Hfound. unfold post_signup.
    rewrite Hvalid. cbn [negb]. unfold User_insert. cbn [email].
    rewrite (bool_decide_eq_false_2 (User_findOne em db = None))
      by (rewrite Hfound; discriminate).
    rewrite andb_false_r. reflexivity.
  - intros em pw rl hp t1 t2 sess db. unfold post_signup.
    destruct (validateInput em pw); cbn [negb]; [|reflexivity].
    unfold User_insert.
    destruct (_ && _); [|reflexivity].
    unfold set_users. cbn [stats]. destruct (stats db); [discriminate|reflexivity].
Qed.

(** *** Favorites *)

Lemma oidToString_inj a b : oidToString a = oidToString b -> a = b.
Proof.
  intros Heq. pose proof (cast_toString a) as Ha.
  rewrite Heq, cast_toString in Ha. congruence.
Qed.

Lemma includes_elem_of v favs :
  includes (oidToString v) favs = bool_decide (v ∈ favs).
Proof.
  unfold includes. apply bool_decide_ext. rewrite Exists_exists. split.
  - intros (x & Hx & Heq). apply oidToString_inj in Heq. congruence.
  - intros Hv. exists v. split; [exact Hv|reflexivity].
Qed.

(** One toggle of an identifier flips its membership and no other. *)
Lemma toggle_elem_of v favs :
  exists favs',
    toggle (oidToString v) favs = Some favs' /\
    (v ∈ favs' <-> v ∉ favs) /\
    (forall x, x <> v -> x ∈ favs' <-> x ∈ favs).
Proof.
  unfold toggle. rewrite includes_elem_of, cast_toString.
  destruct (bool_decide (v ∈ favs)) eqn:Hmem.
  - apply bool_decide_eq_true in Hmem. eexists. split; [reflexivity|]. split.
    + rewrite list_elem_of_filter. split; [intros [Hne _]|intros Hnot]; tauto.
    + intros x Hx. rewrite list_elem_of_filter. split; [tauto|].
      intros Hin. split; [|exact Hin].
      intros Heq. apply oidToString_inj in Heq. contradiction.
  - apply bool_decide_eq_false in Hmem. eexists. split; [reflexivity|]. split.
    + rewrite elem_of_app, list_elem_of_singleton. tauto.
    + intros x Hx. rewrite elem_of_app, list_elem_of_singleton. tauto.
Qed.

Lemma User_findOne_email e db i u :
  User_findOne e db = Some (i, u) -> email u = e.
Proof. unfold User_findOne. rewrite list_find_Some. intros (_ & He & _). exact He. Qed.

Lemma User_findOne_update e db i u u' :
  User_findOne e db = Some (i, u) -> email u' = e ->
  User_findOne e (set_users (<[i := u']> (users db)) db) = Some (i, u').
Proof.
  unfold User_findOne. cbn [users set_users].
  rewrite !list_find_Some. intros (Hi & _ & Hleast) He.
  split; [|split].
  - apply list_lookup_insert_eq. eapply lookup_lt_Some. exact Hi.
  - exact He.
  - intros j y Hj Hlt. rewrite list_lookup_insert_ne in Hj by lia.
    eapply Hleast; eassumption.
Qed.

(** What a toggle by a logged-in, existing user does. *)
Lemma post_toggle_favorite_user su db i user v :
  User_findOne (s_email su) db = Some (i, user) ->
  exists favs,
    toggle (oidToString v) (favorites user) = Some favs /\
    post_toggle_favorite (oidToString v) (Some su) db =
      (Reply 200 (JsonFavorites favs),
       Some {| s_email := s_email su; s_role := s_role su;
               s_favorites := Some favs |},
       set_users (<[i := set_favorites favs user]> (users db)) db).
Proof.
  intros Hu. destruct (toggle_elem_of v (favorites user)) as (favs & Ht & _).
  exists favs. split; [exact Ht|].
  unfold post_toggle_favorite. rewrite Hu, Ht. reflexivity.
Qed.

Lemma toggles_S k videoId sess db :
  toggles (S k) videoId sess db = toggleStep videoId (toggles k videoId sess db).
Proof. reflexivity. Qed.

(** The state after [k] toggles of [v] by the user of session [su]. *)
Lemma toggles_state su db i user v k :
  User_findOne (s_email su) db = Some (i, user) ->
  exists su' user',
    (toggles k (oidToString v) (Some su) db).1 = Some su' /\
    s_email su' = s_email su /\
    User_findOne (s_email su) (toggles k (oidToString v) (Some su) db).2
      = Some (i, user') /\
    (v ∈ favorites user' <->
     xorb (bool_decide (v ∈ favorites user)) (Nat.odd k) = true) /\
    (forall x, x <> v -> x ∈ favorites user' <-> x ∈ favorites user).
Proof.
  intros Hu. induction k as [|k IH].
  - exists su, user. cbn [toggles Nat.iter fst snd Nat.odd].
    rewrite xorb_false_r, bool_decide_eq_true. tauto.
  - destruct IH as (su' & user' & Hs & He & Hu' & Hv & Hx).
    rewrite toggles_S. unfold toggleStep. rewrite Hs.
    rewrite <- He in Hu'.
    destruct (post_toggle_favorite_user su' _ i user' v Hu')
      as (favs & Ht & ->).
    destruct (toggle_elem_of v (favorites user')) as (favs0 & Ht0 & Hv0 & Hx0).
    assert (favs0 = favs) as -> by congruence.
    eexists _, (set_favorites favs user').
    cbn [session database response fst snd s_email].
    split; [reflexivity|]. split; [exact He|]. split; [|split].
    + rewrite <- He. apply (User_findOne_update _ _ _ user'); [exact Hu'|].
      exact (User_findOne_email _ _ _ _ Hu').
    + cbn [set_favorites favorites]. rewrite Hv0, Hv, Nat.odd_succ.
      rewrite <- Nat.negb_odd.
      destruct (bool_decide (v ∈ favorites user)), (Nat.odd k); cbn;
        intuition congruence.
    + intros x Hne. cbn [set_favorites favorites].
      rewrite (Hx0 x Hne). apply Hx. exact Hne.
Qed.

(** X17. For an existing user with a session and a video identifier [v]
    passed to the route as its own string: after [k] toggles in a row, served
    one after the other, [v] is among the user's favorites exactly when its
    initial membership XOR the parity of [k] holds, and no other identifier
    has entered or left; in particular two toggles in a row give back the
    original set. Each toggle is answered 200 with the resulting
    favorites. *)
Theorem toggleFavorite_parity :
  forall su db i user (v : ObjectId),
    User_findOne (s_email su) db = Some (i, user) ->
    (exists favs,
        response (post_toggle_favorite (oidToString v) (Some su) db) =
          Reply 200 (JsonFavorites favs) /\
        favoritesOf (s_email su)
          (database (post_toggle_favorite (oidToString v) (Some su) db)) =
          Some favs) /\
    (exists favs2,
        favoritesOf (s_email su) (toggles 2 (oidToString v) (Some su) db).2
          = Some favs2 /\
        forall x, x ∈ favs2 <-> x ∈ favorites user) /\
    (forall k, exists favsk,
        favoritesOf (s_email su) (toggles k (oidToString v) (Some su) db).2
          = Some favsk /\
        bool_decide (v ∈ favsk) =
          xorb (bool_decide (v ∈ favorites user)) (Nat.odd k) /\
        forall x, x <> v -> x ∈ favsk <-> x ∈ favorites user).
Proof.
  intros su db i user v Hu. split; [|split].
  - destruct (post_toggle_favorite_user su db i user v Hu) as (favs & _ & ->).
    exists favs. cbn [response database fst snd]. split; [reflexivity|].
    unfold favoritesOf.
    rewrite (User_findOne_update _ _ _ user (set_favorites favs user) Hu)
      by exact (User_findOne_email _ _ _ _ Hu).
    reflexivity.
  - destruct (toggles_state su db i user v 2 Hu)
      as (su' & user' & _ & _ & Hu' & Hv & Hx).
    exists (favorites user'). unfold favoritesOf. rewrite Hu'.
    split; [reflexivity|]. intros x.
    destruct (decide (x = v)) as [->|Hne]; [|exact (Hx x Hne)].
    rewrite Hv. cbn [Nat.odd]. rewrite xorb_false_r, bool_decide_eq_true.
    reflexivity.
  - intros k. destruct (toggles_state su db i user v k Hu)
      as (su' & user' & _ & _ & Hu' & Hv & Hx).
    exists (favorites user'). unfold favoritesOf. rewrite Hu'.
    split; [reflexivity|]. split; [|exact Hx].
    destruct (xorb _ _) eqn:Hxor.
    + apply bool_decide_eq_true. apply Hv. reflexivity.
    + apply bool_decide_eq_false. rewrite Hv. discriminate.
Qed.

(** *** A spelling that is not the identifier's string *)

(** [includes] compares the route parameter itself with the strings of the
    stored identifiers: a parameter that casts to [v] without being the
    string of [v] matches none of them. *)
Lemma includes_other_spelling videoId v favs :
  castObjectId videoId = Some v -> oidToString v <> videoId ->
  includes videoId favs = false.
Proof.
  intros Hcast Hne. unfold includes. apply bool_decide_eq_false.
  rewrite Exists_exists. intros (x & _ & Hx).
  apply Hne. rewrite <- Hx in Hcast. rewrite cast_toString in Hcast.
  injection Hcast as ->. exact Hx.
Qed.

Lemma toggle_other_spelling_pushes videoId v favs :
  castObjectId videoId = Some v -> oidToString v <> videoId ->
  toggle videoId favs = Some (favs ++ [v]).
Proof.
  intros Hcast Hne. unfold toggle.
  rewrite (includes_other_spelling videoId v favs Hcast Hne), Hcast. reflexivity.
Qed.

Lemma replicate_snoc {A} (x : A) k : replicate k x ++ [x] = replicate (S k) x.
Proof. induction k as [|k IH]; cbn; [reflexivity|]. rewrite IH. reflexivity. Qed.

Lemma toggles_other_spelling_state su db i user videoId v k :
  User_findOne (s_email su) db = Some (i, user) ->
  castObjectId videoId = Some v -> oidToString v <> videoId ->
  exists su',
    (toggles k videoId (Some su) db).1 = Some su' /\
    s_email su' = s_email su /\
    User_findOne (s_email su) (toggles k videoId (Some su) db).2 =
      Some (i, set_favorites (favorites user ++ replicate k v) user).
Proof.
  intros Hu Hcast Hne. induction k as [|k IH].
  - exists su. split; [reflexivity|]. split; [reflexivity|].
    change (toggles 0 videoId (Some su) db).2 with db.
    cbn [replicate]. rewrite app_nil_r, Hu. destruct user; reflexivity.
  - destruct IH as (su' & Hs & He & Hu').
    rewrite toggles_S. unfold toggleStep. rewrite Hs.
    unfold post_toggle_favorite. rewrite He, Hu'.
    cbn [favorites set_favorites].
    rewrite (toggle_other_spelling_pushes videoId v _ Hcast Hne).
    cbn [session database response fst snd s_email].
    eexists. split; [reflexivity|]. split; [reflexivity|].
    rewrite <- app_assoc, replicate_snoc.
    apply (User_findOne_update _ _ i
             (set_favorites (favorites user ++ replicate k v) user));
      [exact Hu'|].
    exact (User_findOne_email _ _ _ _ Hu).
Qed.

(** C4. The toggle does not flip membership for every spelling of an
    identifier. For a logged-in, existing user and a route parameter that
    casts to the identifier [v] without being the string of [v], the test of
    line 166 never finds [v] and the push of line 171 adds it: each toggle is
    answered 200 and appends [v], so that after [k] toggles the favorites are
    the original ones followed by [k] copies of [v]. A favorite is thus not
    removed by one toggle, and two toggles do not give back a set that
    lacked [v]. *)
Theorem toggleFavorite_spelling_never_flips :
  forall su db i user videoId (v : ObjectId),
    User_findOne (s_email su) db = Some (i, user) ->
    castObjectId videoId = Some v -> oidToString v <> videoId ->
    (forall k,
        favoritesOf (s_email su) (toggles k videoId (Some su) db).2 =
          Some (favorites user ++ replicate k v)) /\
    (forall k,
        response
          (post_toggle_favorite videoId
             (toggles k videoId (Some su) db).1
             (toggles k videoId (Some su) db).2) =
          Reply 200 (JsonFavorites (favorites user ++ replicate (S k) v))) /\
    (v ∈ favorites user ->
     exists favs1,
       favoritesOf (s_email su) (toggles 1 videoId (Some su) db).2 = Some favs1 /\
       v ∈ favs1) /\
    (v ∉ favorites user ->
     exists favs2,
       favoritesOf (s_email su) (toggles 2 videoId (Some su) db).2 = Some favs2 /\
       v ∈ favs2).
Proof.
  intros su db i user videoId v Hu Hcast Hne.
  assert (forall k,
             favoritesOf (s_email su) (toggles k videoId (Some su) db).2 =
             Some (favorites user ++ replicate k v)) as Hfavs.
  { intros k.
    destruct (toggles_other_spelling_state su db i user videoId v k Hu Hcast Hne)
      as (su' & _ & _ & Hu').
    unfold favoritesOf. rewrite Hu'. reflexivity. }
  split; [exact Hfavs|]. split; [|split].
  - intros k.
    destruct (toggles_other_spelling_state su db i user videoId v k Hu Hcast Hne)
      as (su' & Hs & He & Hu').
    rewrite Hs. unfold post_toggle_favorite. rewrite He, Hu'.
    cbn [favorites set_favorites].
    rewrite (toggle_other_spelling_pushes videoId v _ Hcast Hne).
    cbn [response fst]. rewrite <- app_assoc, replicate_snoc. reflexivity.
  - intros Hin. eexists. split; [apply Hfavs|].
    apply elem_of_app. left. exact Hin.
  - intros _. eexists. split; [apply Hfavs|].
    apply elem_of_app. right. cbn. apply elem_of_cons. left. reflexivity.
Qed.

(** *** The histogram invariant *)

Lemma isoDate_mono a b : a <= b -> isoDate a <= isoDate b.
Proof. intros Hab. unfold isoDate, msPerDay. apply Z.div_le_mono; lia. Qed.

(** An update adds at most one entry on a date, and only by a push. *)
Lemma length_entriesOn_updateHistory d t1 t2 h :
  (length (entriesOn d (updateHistory t1 t2 h)) <=
   length (entriesOn d h) +
   if decide (isoDate t2 = d /\ entriesOn (isoDate t1) h = []) then 1 else 0)%nat.
Proof.
  induction h as [|x h IH].
  - rewrite updateHistory_nil, !entriesOn_cons. cbn [date].
    destruct (decide (isoDate t2 = d)) as [Hd|Hd].
    + rewrite decide_True by (split; [exact Hd|reflexivity]). cbn. lia.
    + cbn. lia.
  - rewrite updateHistory_cons.
    destruct (decide (isoDate (date x) = isoDate t1)) as [Hx|Hx].
    + rewrite !entriesOn_cons. cbn [bump date].
      destruct (decide (isoDate (date x) = d)); cbn [length]; lia.
    + rewrite (entriesOn_cons (isoDate t1) x h), (decide_False (P := _ = isoDate t1))
        by exact Hx.
      rewrite !entriesOn_cons.
      destruct (decide (isoDate (date x) = d)); cbn [length]; lia.
Qed.

Lemma datedUpTo_updateHistory now t1 t2 h :
  now <= t2 -> datedUpTo now h -> datedUpTo t2 (updateHistory t1 t2 h).
Proof.
  intros Hnow. unfold datedUpTo. induction 1 as [|x h Hx Hh IH].
  - rewrite updateHistory_nil. constructor; [cbn; lia|constructor].
  - rewrite updateHistory_cons.
    destruct (decide (isoDate (date x) = isoDate t1)).
    + constructor; [cbn; lia|].
      eapply Forall_impl; [exact Hh|]. cbn. intros; lia.
    + constructor; [lia|exact IH].
Qed.

Lemma entriesOn_later now d h :
  datedUpTo now h -> isoDate now < d -> entriesOn d h = [].
Proof.
  intros Hh Hd. induction Hh as [|x h Hx Hh IH]; [reflexivity|].
  rewrite entriesOn_cons, decide_False; [exact IH|].
  pose proof (isoDate_mono _ _ Hx). lia.
Qed.

Lemma oneEntryPerDate_updateHistory now t1 t2 h :
  now <= t1 -> t1 <= t2 ->
  oneEntryPerDate h -> datedUpTo now h ->
  oneEntryPerDate (updateHistory t1 t2 h).
Proof.
  intros Hnow H12 Hone Hdated d.
  pose proof (length_entriesOn_updateHistory d t1 t2 h) as Hlen.
  destruct (decide (isoDate t2 = d /\ entriesOn (isoDate t1) h = []))
    as [[Hd Hnone]|_]; [|specialize (Hone d); lia].
  assert (entriesOn d h = []) as Hempty.
  { destruct (decide (d = isoDate t1)) as [->|Hne]; [exact Hnone|].
    apply (entriesOn_later now); [exact Hdated|].
    pose proof (isoDate_mono _ _ Hnow). pose proof (isoDate_mono _ _ H12). lia. }
  rewrite Hempty in Hlen. cbn in Hlen. lia.
Qed.

(** Only a signup answered 200 touches the history. *)
Lemma history_handle rq sess db :
  history (database (handle rq sess db)) = history db \/
  exists em pw rl hp t1 t2,
    rq = PostSignup em pw rl hp t1 t2 /\
    history (database (handle rq sess db)) = updateHistory t1 t2 (history db).
Proof.
  unfold history, database.
  destruct rq as [em pw rl hp t1 t2|em pw| |videoId|name cat file newId| |cat
                 |videoId| | ]; cbn [handle].
  - unfold post_signup. destruct (validateInput em pw); cbn [negb];
      [|left; reflexivity].
    unfold User_insert. destruct (_ && _); [|left; reflexivity].
    unfold set_users. cbn [stats].
    destruct (stats db) as [st|] eqn:Hst; cbn [snd stats set_stats].
    + right. exists em, pw, rl, hp, t1, t2. split; reflexivity.
    + left. rewrite ?Hst. reflexivity.
  - left. unfold post_login. destruct (User_findOne em db) as [[? user]|];
      [destruct (bcrypt_compare _ _)|]; reflexivity.
  - left. unfold get_account. destruct sess; reflexivity.
  - left. unfold post_toggle_favorite. destruct sess as [su|]; [|reflexivity].
    destruct (User_findOne _ db) as [[i user]|]; [|reflexivity].
    destruct (toggle _ _); reflexivity.
  - left. unfold post_upload. destruct file as [f|]; [|reflexivity].
    unfold Video_insert. destruct (bool_decide _); reflexivity.
  - left. reflexivity.
  - left. reflexivity.
  - left. unfold get_video. destruct (castObjectId videoId) as [o|]; [|reflexivity].
    destruct (Video_findById o db) as [[i v]|]; [|reflexivity].
    unfold set_videos. cbn [stats].
    destruct (stats db) as [st|] eqn:Hst; cbn [snd stats set_stats];
      rewrite ?Hst; reflexivity.
  - left. unfold get_home.
    destruct (stats db) as [st|] eqn:Hst; cbn [snd stats set_stats];
      rewrite ?Hst; reflexivity.
  - left. reflexivity.
Qed.

Lemma clock_ok_cons now rq sess rest :
  clock_ok now ((rq, sess) :: rest) <->
  clock_ok now [(rq, sess)] /\ clock_ok (clock_after now rq) rest.
Proof. clear. destruct rq; cbn; tauto. Qed.

Lemma clock_after_le now rq sess :
  clock_ok now [(rq, sess)] -> now <= clock_after now rq.
Proof. destruct rq; cbn; lia. Qed.

Lemma handle_invariant db now rq sess :
  clock_ok now [(rq, sess)] ->
  oneEntryPerDate (history db) -> datedUpTo now (history db) ->
  oneEntryPerDate (history (database (handle rq sess db))) /\
  datedUpTo (clock_after now rq) (history (database (handle rq sess db))).
Proof.
  intros Hclock Hone Hdated.
  destruct (history_handle rq sess db)
    as [->|(em & pw & rl & hp & t1 & t2 & -> & ->)].
  - split; [exact Hone|].
    eapply Forall_impl; [exact Hdated|]. cbn.
    pose proof (clock_after_le _ _ _ Hclock). intros; lia.
  - cbn in Hclock. destruct Hclock as (H1 & H2 & _). cbn [clock_after]. split.
    + apply (oneEntryPerDate_updateHistory now); assumption.
    + apply (datedUpTo_updateHistory now); [lia|exact Hdated].
Qed.

Lemma run_invariant rqs : forall db now,
  clock_ok now rqs ->
  oneEntryPerDate (history db) -> datedUpTo now (history db) ->
  oneEntryPerDate (history (run rqs db).2).
Proof.
  induction rqs as [|[rq sess] rest IH]; intros db now Hclock Hone Hdated.
  - exact Hone.
  - apply clock_ok_cons in Hclock as [Hhead Hrest].
    destruct (handle_invariant db now rq sess Hhead Hone Hdated) as [Hone' Hdated'].
    cbn [run snd]. apply (IH _ (clock_after now rq)); assumption.
Qed.

(** X18. Starting from an empty Stats document, after any sequence of
    requests, served one after the other under a clock that does not run
    backwards, the signup history has at most one entry per calendar date.
    Every single request preserves this, together with the fact that no
    entry is dated after the last clock read. *)
Theorem histogram_one_entry_per_date :
  (forall db now rqs,
      stats db = Some emptyStats -> clock_ok now rqs ->
      oneEntryPerDate (history (run rqs db).2)) /\
  (forall db now rq sess,
      clock_ok now [(rq, sess)] ->
      oneEntryPerDate (history db) -> datedUpTo now (history db) ->
      oneEntryPerDate (history (database (handle rq sess db))) /\
      datedUpTo (clock_after now rq) (history (database (handle rq sess db)))).
Proof.
  split.
  - intros db now rqs Hinit Hclock. apply (run_invariant rqs db now Hclock).
    + unfold history. rewrite Hinit. intros d. cbn. lia.
    + unfold history. rewrite Hinit. constructor.
  - exact handle_invariant.
Qed.

(** *** Two entries on one date *)

Lemma updateHistory_absent t1 t2 h :
  entriesOn (isoDate t1) h = [] ->
  updateHistory t1 t2 h = h ++ [{| date := t2; count := 1 |}].
Proof.
  induction h as [|x h IH]; intros Habsent.
  - reflexivity.
  - rewrite updateHistory_cons. rewrite entriesOn_cons in Habsent.
    destruct (decide (isoDate (date x) = isoDate t1)); [discriminate|].
    rewrite (IH Habsent). reflexivity.
Qed.

(** C6. The history can hold two entries of one calendar date. The handler
    reads the clock once for [today] (line 106) and once more to date the
    entry it pushes (line 112): when the first read falls on a date without
    an entry and the second on another date that has one, a signup answered
    200 appends a second entry for that date. From an empty Stats document
    two signups served one after the other reach such a state when the clock
    is set back by one millisecond between them. *)
Theorem histogram_duplicate_date :
  (forall em pw rl hp t1 t2 sess db st entry,
      stats db = Some st ->
      entriesOn (isoDate t1) (signupHistory st) = [] ->
      entriesOn (isoDate t2) (signupHistory st) = [entry] ->
      ok (response (post_signup em pw rl hp t1 t2 sess db)) = true ->
      exists st',
        stats (database (post_signup em pw rl hp t1 t2 sess db)) = Some st' /\
        entriesOn (isoDate t2) (signupHistory st') =
          [entry; {| date := t2; count := 1 |}] /\
        ~ oneEntryPerDate (signupHistory st')) /\
  (forall sess1 sess2 videos0,
      let db := {| users := []; videos := videos0;
                   stats := Some emptyStats |} in
      let rqs :=
        [(PostSignup "bob@pod.io" "secret1" "listener" "1terces"
            86400000 86400000, sess1);
         (PostSignup "carol@pod.io" "secret2" "creator" "2terces"
            86399999 86400000, sess2)] in
      Forall (fun r => ok r = true) (run rqs db).1 /\
      history (run rqs db).2 =
        [{| date := 86400000; count := 1 |};
         {| date := 86400000; count := 1 |}] /\
      ~ oneEntryPerDate (history (run rqs db).2)).
Proof.
  clear cast_toString. split.
  - intros em pw rl hp t1 t2 sess db st entry Hst Habsent Hother Hok.
    exists (signupStats t1 t2 st).
    split; [exact (post_signup_ok_stats _ _ _ _ _ _ _ _ _ Hst Hok)|].
    cbn [signupStats signupHistory].
    rewrite (updateHistory_absent t1 t2 _ Habsent).
    assert (entriesOn (isoDate t2)
              (signupHistory st ++ [{| date := t2; count := 1 |}]) =
            [entry; {| date := t2; count := 1 |}]) as Htwo.
    { unfold entriesOn in *. rewrite filter_app, Hother, filter_cons.
      cbn [date]. rewrite decide_True by reflexivity. reflexivity. }
    split; [exact Htwo|].
    intros Hone. specialize (Hone (isoDate t2)). rewrite Htwo in Hone.
    cbn in Hone. lia.
  - intros sess1 sess2 videos0 db rqs.
    assert (history (run rqs db).2 =
            [{| date := 86400000; count := 1 |};
             {| date := 86400000; count := 1 |}]) as Hhist by reflexivity.
    split; [repeat constructor|]. split; [exact Hhist|].
    rewrite Hhist. intros Hone. specialize (Hone 1).
    vm_compute in Hone. lia.
Qed.

(** *** View counters *)

(** A request moves [totalViews] by one when it records a view and is
    answered 200, and not at all otherwise. *)
Lemma totalViews_handle rq sess db st :
  stats db = Some st ->
  exists st',
    stats (database (handle rq sess db)) = Some st' /\
    totalViews st' =
      totalViews st + if isView rq && ok (response (handle rq sess db)) then 1 else 0.
Proof.
  intros Hst. unfold database, response.
  destruct rq as [em pw rl hp t1 t2|em pw| |videoId|name cat file newId| |cat
                 |videoId| | ]; cbn [handle isView andb].
  - unfold post_signup. destruct (validateInput em pw); cbn [negb].
    + unfold User_insert. destruct (_ && _).
      * unfold set_users. cbn [stats]. rewrite Hst. cbn.
        eexists. split; [reflexivity|]. cbn. lia.
      * exists st. cbn. split; [exact Hst|lia].
    + exists st. cbn. split; [exact Hst|lia].
  - exists st. unfold post_login. destruct (User_findOne em db) as [[? user]|];
      [destruct (bcrypt_compare _ _)|]; cbn; (split; [exact Hst|lia]).
  - exists st. unfold get_account. destruct sess; cbn; (split; [exact Hst|lia]).
  - exists st. unfold post_toggle_favorite. destruct sess as [su|];
      [|cbn; split; [exact Hst|lia]].
    destruct (User_findOne _ db) as [[i user]|]; [|cbn; split; [exact Hst|lia]].
    destruct (toggle _ _); cbn; (split; [exact Hst|lia]).
  - exists st. unfold post_upload. destruct file as [f|];
      [|cbn; split; [exact Hst|lia]].
    unfold Video_insert. destruct (bool_decide _); cbn; (split; [exact Hst|lia]).
  - exists st. cbn. split; [exact Hst|lia].
  - exists st. cbn. split; [exact Hst|lia].
  - unfold get_video. destruct (castObjectId videoId) as [o|];
      [|exists st; cbn; split; [exact Hst|lia]].
    destruct (Video_findById o db) as [[i v]|];
      [|exists st; cbn; split; [exact Hst|lia]].
    unfold set_videos. cbn [stats]. rewrite Hst. cbn.
    eexists. split; [reflexivity|]. reflexivity.
  - unfold get_home. rewrite Hst. cbn. eexists. split; reflexivity.
  - exists st. cbn. split; [exact Hst|lia].
Qed.

Lemma totalViews_run rqs : forall db st,
  stats db = Some st ->
  exists st',
    stats (run rqs db).2 = Some st' /\
    totalViews st' = totalViews st + successfulViews rqs db.
Proof.
  induction rqs as [|[rq sess] rest IH]; intros db st Hst.
  - exists st. cbn. split; [exact Hst|lia].
  - destruct (totalViews_handle rq sess db st Hst) as (st1 & Hst1 & Hv1).
    destruct (IH _ st1 Hst1) as (st' & Hst' & Hv').
    exists st'. cbn [run snd successfulViews]. split; [exact Hst'|lia].
  Qed.

(** *** Listing *)

Lemma project_listed v :
  project "filename podcastName _id" (toObject v) = listed v.
Proof. reflexivity. Qed.

Lemma Video_find_listed conditions db :
  Video_find conditions "filename podcastName _id" db =
  map listed
    match conditions with
    | None => videos db
    | Some cat => filter (fun v => category v = cat) (videos db)
    end.
Proof. unfold Video_find. apply map_ext. intros v. apply project_listed. Qed.

(** C8, amended. Both listing routes leave the database and the session as
    they are and send one record per video (per video of the requested
    category, for the filtered route), in store order; a record has exactly
    the fields [_id], [podcastName] and [filename]: neither the payload nor
    the category is part of it. *)
Theorem listVideos_projection :
  forall sess db,
    get_videos sess db =
      (Reply 200 (JsonDocs (map listed (videos db))), sess, db) /\
    (forall cat,
        get_videos_category cat sess db =
          (Reply 200
             (JsonDocs
                (map listed (filter (fun v => category v = cat) (videos db)))),
           sess, db)) /\
    (forall v,
        fieldNames (listed v) = ["_id"; "podcastName"; "filename"] /\
        ("video" ∉ fieldNames (listed v)) /\
        ("category" ∉ fieldNames (listed v))).
Proof.
  intros sess db. split; [|split].
  - unfold get_videos. rewrite Video_find_listed. reflexivity.
  - intros cat. unfold get_videos_category. rewrite Video_find_listed.
    reflexivity.
  - intros v. split; [reflexivity|]. cbn.
    split; intros Hin; repeat (apply elem_of_cons in Hin as [Hin|Hin];
      [discriminate|]); inversion Hin.
Qed.

(** *** One handler call, run without interruption *)

Lemma Video_findById_Some o db i v :
  Video_findById o db = Some (i, v) -> videos db !! i = Some v /\ _id v = o.
Proof. unfold Video_findById. rewrite list_find_Some. tauto. Qed.

Lemma stats_set_videos vs db : stats (set_videos vs db) = stats db.
Proof. reflexivity. Qed.

Lemma Video_save_views_found o db i stored w :
  Video_findById o db = Some (i, stored) -> _id w = o ->
  Video_save_views w db =
    set_videos (<[i := set_views (views w) stored]> (videos db)) db.
Proof.
  intros Hfound Hid. unfold Video_save_views. rewrite Hid, Hfound. reflexivity.
Qed.

Lemma set_videos_set_videos a b db :
  set_videos a (set_videos b db) = set_videos a db.
Proof. reflexivity. Qed.

Lemma Stats_save_totalViews_found s db st :
  stats db = Some st ->
  Stats_save_totalViews s db =
    set_stats (Some (set_totalViews (totalViews s) st)) db.
Proof. intros Hst. unfold Stats_save_totalViews. rewrite Hst. reflexivity. Qed.

Lemma Video_findById_set_stats o s db :
  Video_findById o (set_stats s db) = Video_findById o db.
Proof. reflexivity. Qed.

Lemma set_views_set_views n m v : set_views n (set_views m v) = set_views n v.
Proof. reflexivity. Qed.

(** A call resumed four times in a row is the handler [get_video]. *)
Lemma interleave_alone videoId sess db :
  interleave [0; 0; 0; 0]%nat [AwaitFindById videoId] db =
  ([Finished (response (get_video videoId sess db))],
   database (get_video videoId sess db)).
Proof.
  unfold get_video. cbn [interleave lookup list_lookup resume].
  destruct (castObjectId videoId) as [o|]; [|reflexivity].
  destruct (Video_findById o db) as [[i v]|] eqn:Hfound; [|reflexivity].
  cbn [fst snd insert list_insert lookup list_lookup resume].
  destruct (Video_findById_Some _ _ _ _ Hfound) as [_ Hid].
  rewrite (Video_save_views_found o db i v (set_views (views v + 1) v)
             Hfound Hid), !stats_set_videos.
  cbn [views set_views].
  destruct (stats db) as [st|] eqn:Hst; [|reflexivity].
  cbn [fst snd insert list_insert lookup list_lookup resume].
  unfold Stats_save_totalViews. rewrite stats_set_videos, Hst. reflexivity.
Qed.

(** *** Toggling without a user document *)

(** C5. A logged-in client whose user has no document is not told "not
    found": [User.findOne] gives [null], reading [user.favorites] throws,
    and the [catch] answers 500 "Error updating favorites.", as for any
    other failure, leaving the database as it was. An existing user toggles
    any identifier with success, whether or not a video bears it. *)
Theorem toggleFavorite_missing_user :
  (forall su videoId db,
      User_findOne (s_email su) db = None ->
      post_toggle_favorite videoId (Some su) db =
        (Reply 500 (JsonMessage "Error updating favorites."), Some su, db)) /\
  (forall su db i user (v : ObjectId),
      User_findOne (s_email su) db = Some (i, user) ->
      ok (response (post_toggle_favorite (oidToString v) (Some su) db)) = true).
Proof.
  split.
  - intros su videoId db Hnone. unfold post_toggle_favorite.
    rewrite Hnone. reflexivity.
  - intros su db i user v Hu.
    destruct (post_toggle_favorite_user su db i user v Hu) as (favs & _ & ->).
    reflexivity.
Qed.

(** *** Fetches one after the other, and interleaved *)

Lemma Video_findById_insert o db i v v' :
  Video_findById o db = Some (i, v) -> _id v' = o ->
  Video_findById o (set_videos (<[i := v']> (videos db)) db) = Some (i, v').
Proof.
  unfold Video_findById. cbn [videos set_videos].
  rewrite !list_find_Some. intros (Hi & _ & Hleast) Hid.
  split; [|split].
  - apply list_lookup_insert_eq. eapply lookup_lt_Some. exact Hi.
  - exact Hid.
  - intros j y Hj Hlt. rewrite list_lookup_insert_ne in Hj by lia.
    eapply Hleast; eassumption.
Qed.

(** What a fetch of a stored video does. *)
Lemma get_video_found o sess db i v st :
  Video_findById o db = Some (i, v) -> stats db = Some st ->
  get_video (oidToString o) sess db =
    (Reply 200 (Payload (contentType v) (video v)), sess,
     set_stats (Some (set_totalViews (totalViews st + 1) st))
       (set_videos (<[i := set_views (views v + 1) v]> (videos db)) db)).
Proof.
  intros Hfound Hst. unfold get_video.
  rewrite cast_toString, Hfound, stats_set_videos, Hst. reflexivity.
Qed.

(** Fetches served one after the other are all counted. *)
Lemma sequential_fetches o sess (n : nat) : forall db i v st,
  Video_findById o db = Some (i, v) -> stats db = Some st ->
  exists v',
    Video_findById o
      (run (replicate n (GetVideo (oidToString o), sess)) db).2 = Some (i, v') /\
    views v' = views v + Z.of_nat n.
Proof.
  induction n as [|n IH]; intros db i v st Hfound Hst.
  - exists v. cbn. split; [exact Hfound|lia].
  - cbn [replicate run snd handle].
    rewrite (get_video_found o sess db i v st Hfound Hst). cbn [database snd].
    destruct (Video_findById_Some _ _ _ _ Hfound) as [_ Hid].
    edestruct (IH (set_stats (Some (set_totalViews (totalViews st + 1) st))
                     (set_videos (<[i := set_views (views v + 1) v]> (videos db)) db))
                  i (set_views (views v + 1) v)) as (v' & Hfound' & Hviews).
    + apply (Video_findById_insert o db i v); [exact Hfound|exact Hid].
    + reflexivity.
    + exists v'. split; [exact Hfound'|]. cbn [views set_views] in Hviews. lia.
Qed.

Lemma interleave_cons i rest tasks db t :
  tasks !! i = Some t ->
  interleave (i :: rest) tasks db =
  interleave rest (<[i := (resume t db).1]> tasks) (resume t db).2.
Proof. intros Ht. cbn [interleave]. rewrite Ht. reflexivity. Qed.

Lemma resume_findById o db i v :
  Video_findById o db = Some (i, v) ->
  resume (AwaitFindById (oidToString o)) db =
    (AwaitVideoSave (set_views (views v + 1) v), db).
Proof.
  intros Hfound. cbn [resume]. rewrite cast_toString, Hfound. reflexivity.
Qed.

(** C9. Two calls of the video route for one stored video, resumed in turn
    at each [await]: both read the video before either saves it, both save
    the counter they read plus one, and both are answered 200 with the
    payload, yet the database ends as a single call leaves it: the video's
    counter and [totalViews] have grown by one, not two. *)
Theorem recordView_lost_update :
  forall o sess db i v st,
    Video_findById o db = Some (i, v) -> stats db = Some st ->
    interleave [0; 1; 0; 1; 0; 1; 0; 1]%nat
      [AwaitFindById (oidToString o); AwaitFindById (oidToString o)] db =
      ([Finished (Reply 200 (Payload (contentType v) (video v)));
        Finished (Reply 200 (Payload (contentType v) (video v)))],
       database (get_video (oidToString o) sess db)) /\
    viewsOf o (database (get_video (oidToString o) sess db)) =
      Some (views v + 1) /\
    totalViews <$> stats (database (get_video (oidToString o) sess db)) =
      Some (totalViews st + 1).
Proof.
  intros o sess db i v st Hfound Hst.
  rewrite (get_video_found o sess db i v st Hfound Hst). cbn [database snd].
  destruct (Video_findById_Some _ _ _ _ Hfound) as [_ Hid].
  pose proof (Video_findById_insert o db i v (set_views (views v + 1) v)
                Hfound Hid) as Hfound1.
  split; [|split].
  - (* both calls read the video *)
    do 2 (erewrite interleave_cons by reflexivity;
          rewrite (resume_findById o db i v Hfound);
          cbn [fst snd insert list_insert]).
    (* both save the counter they computed *)
    erewrite interleave_cons by reflexivity.
    cbn [resume fst snd insert list_insert].
    rewrite (Video_save_views_found o db i v (set_views (views v + 1) v)
               Hfound Hid).
    cbn [views set_views].
    erewrite interleave_cons by reflexivity.
    cbn [resume fst snd insert list_insert].
    rewrite (Video_save_views_found o _ i _ (set_views (views v + 1) v)
               Hfound1 Hid).
    cbn [views set_views]. rewrite set_views_set_views.
    rewrite set_videos_set_videos. cbn [videos set_videos].
    rewrite list_insert_insert_eq.
    change {| users := users db;
              videos := <[i := set_views (views v + 1) v]> (videos db);
              stats := stats db |}
      with (set_videos (<[i := set_views (views v + 1) v]> (videos db)) db).
    (* both read the statistics *)
    do 2 (erewrite interleave_cons by reflexivity;
          cbn [resume]; rewrite stats_set_videos, Hst;
          cbn [fst snd insert list_insert]).
    (* both save the total they computed *)
    do 2 (erewrite interleave_cons by reflexivity;
          cbn [resume fst snd insert list_insert]).
    rewrite (Stats_save_totalViews_found _
               (set_videos (<[i := set_views (views v + 1) v]> (videos db)) db)
               st) by exact Hst.
    rewrite (Stats_save_totalViews_found _ _
               (set_totalViews (totalViews st + 1) st)) by reflexivity.
    reflexivity.
  - unfold viewsOf. rewrite Video_findById_set_stats, Hfound1. reflexivity.
  - reflexivity.
Qed.

(** C7. A fetch answered 200 does not always add one to [totalViews]. Two
    calls of the video route for one stored video, the second reading the
    video after the first has saved it but both reading the Stats document
    before either saves it, are both answered 200 with the payload and both
    counted on the video, whose counter grows by two, while [totalViews]
    grows by one: the second save of line 248 writes the total the first one
    wrote. *)
Theorem totalViews_lost_update :
  forall o db i v st,
    Video_findById o db = Some (i, v) -> stats db = Some st ->
    exists final,
      interleave [0; 0; 1; 1; 0; 1; 0; 1]%nat
        [AwaitFindById (oidToString o); AwaitFindById (oidToString o)] db =
        ([Finished (Reply 200 (Payload (contentType v) (video v)));
          Finished (Reply 200 (Payload (contentType v) (video v)))],
         final) /\
      viewsOf o final = Some (views v + 2) /\
      totalViews <$> stats final = Some (totalViews st + 1).
Proof.
  intros o db i v st Hfound Hst.
  destruct (Video_findById_Some _ _ _ _ Hfound) as [_ Hid].
  pose proof (Video_findById_insert o db i v (set_views (views v + 1) v)
                Hfound Hid) as Hfound1.
  exists (set_stats (Some (set_totalViews (totalViews st + 1) st))
            (set_videos (<[i := set_views (views v + 1 + 1) v]> (videos db)) db)).
  split; [|split].
  - (* the first call reads the video and saves its counter *)
    erewrite interleave_cons by reflexivity.
    rewrite (resume_findById o db i v Hfound).
    cbn [fst snd insert list_insert].
    erewrite interleave_cons by reflexivity.
    cbn [resume fst snd insert list_insert].
    rewrite (Video_save_views_found o db i v (set_views (views v + 1) v)
               Hfound Hid).
    cbn [views set_views].
    (* the second call reads the saved video and saves its counter *)
    erewrite interleave_cons by reflexivity.
    rewrite (resume_findById o _ i _ Hfound1).
    cbn [fst snd insert list_insert views set_views].
    rewrite set_views_set_views.
    erewrite interleave_cons by reflexivity.
    cbn [resume fst snd insert list_insert].
    rewrite (Video_save_views_found o _ i _ (set_views (views v + 1 + 1) v)
               Hfound1 Hid).
    cbn [views set_views]. rewrite set_views_set_views.
    rewrite set_videos_set_videos. cbn [videos set_videos].
    rewrite list_insert_insert_eq.
    change {| users := users db;
              videos := <[i := set_views (views v + 1 + 1) v]> (videos db);
              stats := stats db |}
      with (set_videos (<[i := set_views (views v + 1 + 1) v]> (videos db)) db).
    (* both read the statistics *)
    do 2 (erewrite interleave_cons by reflexivity;
          cbn [resume]; rewrite stats_set_videos, Hst;
          cbn [fst snd insert list_insert]).
    (* both save the total they computed *)
    do 2 (erewrite interleave_cons by reflexivity;
          cbn [resume fst snd insert list_insert]).
    rewrite (Stats_save_totalViews_found _
               (set_videos (<[i := set_views (views v + 1 + 1) v]> (videos db)) db)
               st) by exact Hst.
    rewrite (Stats_save_totalViews_found _ _
               (set_totalViews (totalViews st + 1) st)) by reflexivity.
    reflexivity.
  - unfold viewsOf. rewrite Video_findById_set_stats.
    rewrite (Video_findById_insert o db i v (set_views (views v + 1 + 1) v)
               Hfound Hid).
    cbn. f_equal. lia.
  - reflexivity.
Qed.

(** ** Further properties of the handlers *)

(** *** Vocabulary *)

Definition emails (db : DB) : list string := email <$> users db.

Definition videoIds (db : DB) : list ObjectId := _id <$> videos db.

(** The sum of the counts of a history. *)
Definition sumCounts (h : list HistoryEntry) : Z :=
  foldr Z.add 0 (count <$> h).

(** The number of signups of a run that were answered 200. *)
Fixpoint successfulSignups (rqs : list (Request * Session)) (db : DB) : Z :=
  match rqs with
  | [] => 0
  | (rq, sess) :: rest =>
      let r := handle rq sess db in
      (match rq with
       | PostSignup _ _ _ _ _ _ => if ok (response r) then 1 else 0
       | _ => 0
       end)
      + successfulSignups rest (database r)
  end.

(** [v'] is the stored video [v] some views later: nothing but the counter
    differs, and the counter has not gone down. *)
Definition sameAsset (v v' : Video) : Prop :=
  _id v' = _id v /\ podcastName v' = podcastName v /\
  category v' = category v /\ filename v' = filename v /\
  contentType v' = contentType v /\ video v' = video v /\
  views v <= views v'.

(** *** How one request changes each collection *)

Lemma users_handle rq sess db :
  users (database (handle rq sess db)) = users db \/
  (exists em pw rl hp t1 t2,
      rq = PostSignup em pw rl hp t1 t2 /\
      validateInput em pw = true /\
      User_findOne em db = None /\ hp <> "" /\ rl <> "" /\
      users (database (handle rq sess db)) =
        users db ++
        [{| email := em; password := hp; role := rl; favorites := [] |}]) \/
  (exists videoId i u favs,
      rq = PostToggleFavorite videoId /\
      User_findOne u.(email) db = Some (i, u) /\
      toggle videoId (favorites u) = Some favs /\
      users (database (handle rq sess db)) =
        <[i := set_favorites favs u]> (users db)).
Proof.
  clear cast_toString. unfold database.
  destruct rq as [em pw rl hp t1 t2|em pw| |videoId|name cat file newId| |cat
                 |videoId| | ]; cbn [handle].
  - unfold post_signup. destruct (validateInput em pw) eqn:Hvalid; cbn [negb];
      [|left; reflexivity].
    unfold User_insert. cbn [email password role].
    destruct (bool_decide (em <> "" /\ hp <> "" /\ rl <> "")) eqn:Hreq;
      cbn [andb]; [|left; reflexivity].
    destruct (bool_decide (User_findOne em db = None)) eqn:Hfree;
      [|left; reflexivity].
    apply bool_decide_eq_true in Hreq as (_ & Hhp & Hrl).
    apply bool_decide_eq_true in Hfree.
    right; left. exists em, pw, rl, hp, t1, t2.
    split; [reflexivity|]. split; [exact Hvalid|]. split; [exact Hfree|].
    split; [exact Hhp|]. split; [exact Hrl|].
    unfold set_users. cbn [stats]. destruct (stats db); reflexivity.
  - left. unfold post_login. destruct (User_findOne em db) as [[? user]|];
      [destruct (bcrypt_compare _ _)|]; reflexivity.
  - left. unfold get_account. destruct sess; reflexivity.
  - unfold post_toggle_favorite. destruct sess as [su|]; [|left; reflexivity].
    destruct (User_findOne _ db) as [[i user]|] eqn:Hu; [|left; reflexivity].
    destruct (toggle _ _) as [favs|] eqn:Ht; [|left; reflexivity].
    right; right. exists videoId, i, user, favs.
    split; [reflexivity|]. split; [|split; [exact Ht|reflexivity]].
    unfold User_findOne in *. apply list_find_Some in Hu as Hu'.
    destruct Hu' as (_ & -> & _). exact Hu.
  - left. unfold post_upload. destruct file as [f|]; [|reflexivity].
    unfold Video_insert. destruct (bool_decide _); reflexivity.
  - left. reflexivity.
  - left. reflexivity.
  - left. unfold get_video. destruct (castObjectId videoId) as [o|]; [|reflexivity].
    destruct (Video_findById o db) as [[i v]|]; [|reflexivity].
    unfold set_videos. cbn [stats]. destruct (stats db); reflexivity.
  - left. unfold get_home. destruct (stats db); reflexivity.
  - left. reflexivity.
Qed.

Lemma videos_handle rq sess db :
  videos (database (handle rq sess db)) = videos db \/
  (exists name cat f newId,
      rq = PostUpload name cat (Some f) newId /\
      Video_findById newId db = None /\
      videos (database (handle rq sess db)) =
        videos db ++
        [{| _id := newId; podcastName := name; category := cat;
            filename := originalname f; contentType := mimetype f;
            video := buffer f; views := 0 |}]) \/
  (exists videoId o i v,
      rq = GetVideo videoId /\ castObjectId videoId = Some o /\
      Video_findById o db = Some (i, v) /\
      videos (database (handle rq sess db)) =
        <[i := set_views (views v + 1) v]> (videos db)).
Proof.
  clear cast_toString. unfold database.
  destruct rq as [em pw rl hp t1 t2|em pw| |videoId|name cat file newId| |cat
                 |videoId| | ]; cbn [handle].
  - left. unfold post_signup. destruct (validateInput em pw); cbn [negb];
      [|reflexivity].
    unfold User_insert. destruct (_ && _); [|reflexivity].
    unfold set_users. cbn [stats]. destruct (stats db); reflexivity.
  - left. unfold post_login. destruct (User_findOne em db) as [[? user]|];
      [destruct (bcrypt_compare _ _)|]; reflexivity.
  - left. unfold get_account. destruct sess; reflexivity.
  - left. unfold post_toggle_favorite. destruct sess as [su|]; [|reflexivity].
    destruct (User_findOne _ db) as [[i user]|]; [|reflexivity].
    destruct (toggle _ _); reflexivity.
  - unfold post_upload. destruct file as [f|]; [|left; reflexivity].
    unfold Video_insert. cbn [_id].
    destruct (bool_decide (Video_findById newId db = None)) eqn:Hfree;
      [|left; reflexivity].
    apply bool_decide_eq_true in Hfree.
    right; left. exists name, cat, f, newId. repeat split. exact Hfree.
  - left. reflexivity.
  - left. reflexivity.
  - unfold get_video. destruct (castObjectId videoId) as [o|] eqn:Hcast;
      [|left; reflexivity].
    destruct (Video_findById o db) as [[i v]|] eqn:Hfound; [|left; reflexivity].
    right; right. exists videoId, o, i, v.
    split; [reflexivity|]. split; [exact Hcast|]. split; [exact Hfound|].
    unfold set_videos. cbn [stats]. destruct (stats db); reflexivity.
  - left. unfold get_home. destruct (stats db); reflexivity.
  - left. reflexivity.
Qed.

(** *** Unique keys *)

Lemma User_findOne_None_emails e db :
  User_findOne e db = None <-> e ∉ emails db.
Proof.
  unfold User_findOne, emails. rewrite list_find_None, Forall_forall.
  rewrite list_elem_of_fmap. split.
  - intros Hall (u & -> & Hu). exact (Hall u Hu eq_refl).
  - intros Hnot u Hu He. apply Hnot. exists u. split; [symmetry; exact He|exact Hu].
Qed.

Lemma Video_findById_None_videoIds o db :
  Video_findById o db = None <-> o ∉ videoIds db.
Proof.
  unfold Video_findById, videoIds. rewrite list_find_None, Forall_forall.
  rewrite list_elem_of_fmap. split.
  - intros Hall (v & -> & Hv). exact (Hall v Hv eq_refl).
  - intros Hnot v Hv He. apply Hnot. exists v. split; [symmetry; exact He|exact Hv].
Qed.

Lemma fmap_insert_same {A B} (f : A -> B) (l : list A) i x y :
  l !! i = Some x -> f y = f x -> f <$> <[i := y]> l = f <$> l.
Proof.
  intros Hi Hf. rewrite list_fmap_insert, Hf. apply list_insert_id.
  rewrite list_lookup_fmap, Hi. reflexivity.
Qed.

Lemma emails_handle rq sess db :
  emails (database (handle rq sess db)) = emails db \/
  exists e, (e ∉ emails db) /\
            emails (database (handle rq sess db)) = emails db ++ [e].
Proof.
  destruct (users_handle rq sess db)
    as [Heq|[(em & pw & rl & hp & t1 & t2 & _ & _ & Hfree & _ & _ & Heq)
            |(videoId & i & u & favs & _ & Hu & _ & Heq)]];
    unfold emails; rewrite Heq.
  - left. reflexivity.
  - right. exists em. split; [apply User_findOne_None_emails in Hfree; exact Hfree|].
    rewrite fmap_app. reflexivity.
  - left. apply (fmap_insert_same email _ i u); [|reflexivity].
    unfold User_findOne in Hu. apply list_find_Some in Hu. tauto.
Qed.

Lemma videoIds_handle rq sess db :
  videoIds (database (handle rq sess db)) = videoIds db \/
  exists o, (o ∉ videoIds db) /\
            videoIds (database (handle rq sess db)) = videoIds db ++ [o].
Proof.
  destruct (videos_handle rq sess db)
    as [Heq|[(name & cat & f & newId & _ & Hfree & Heq)
            |(videoId & o & i & v & _ & _ & Hfound & Heq)]];
    unfold videoIds; rewrite Heq.
  - left. reflexivity.
  - right. exists newId.
    split; [apply Video_findById_None_videoIds in Hfree; exact Hfree|].
    rewrite fmap_app. reflexivity.
  - left. apply (fmap_insert_same _id _ i v); [|reflexivity].
    apply Video_findById_Some in Hfound. tauto.
Qed.

Lemma NoDup_snoc_fresh {A} (l : list A) x : NoDup l -> x ∉ l -> NoDup (l ++ [x]).
Proof.
  intros Hl Hx. apply NoDup_app. split; [exact Hl|]. split.
  - intros y Hy Hin. apply list_elem_of_singleton in Hin. congruence.
  - apply NoDup_singleton.
Qed.

(** X1. No two user documents share an email: if that holds of the
    database, it holds after any sequence of requests; and the emails
    registered before are all still registered, in the same order, the new
    ones after them. *)
Theorem emails_stay_unique :
  forall rqs db,
    NoDup (emails db) ->
    NoDup (emails (run rqs db).2) /\
    emails db `prefix_of` emails (run rqs db).2.
Proof.
  induction rqs as [|[rq sess] rest IH]; intros db Hnodup.
  - split; [exact Hnodup|reflexivity].
  - cbn [run snd].
    destruct (emails_handle rq sess db) as [Heq|(e & Hfresh & Heq)].
    + rewrite <- Heq in Hnodup |- *. apply IH. exact Hnodup.
    + destruct (IH (database (handle rq sess db))) as [Hn Hp].
      * rewrite Heq. apply NoDup_snoc_fresh; assumption.
      * split; [exact Hn|]. etransitivity; [|exact Hp].
        rewrite Heq. apply prefix_app_r. reflexivity.
Qed.

(** X2. No two video documents share an [_id]: if that holds of the
    database, it holds after any sequence of requests; the stored identifiers
    keep their positions and new ones come after them. *)
Theorem videoIds_stay_unique :
  forall rqs db,
    NoDup (videoIds db) ->
    NoDup (videoIds (run rqs db).2) /\
    videoIds db `prefix_of` videoIds (run rqs db).2.
Proof.
  induction rqs as [|[rq sess] rest IH]; intros db Hnodup.
  - split; [exact Hnodup|reflexivity].
  - cbn [run snd].
    destruct (videoIds_handle rq sess db) as [Heq|(o & Hfresh & Heq)].
    + rewrite <- Heq in Hnodup |- *. apply IH. exact Hnodup.
    + destruct (IH (database (handle rq sess db))) as [Hn Hp].
      * rewrite Heq. apply NoDup_snoc_fresh; assumption.
      * split; [exact Hn|]. etransitivity; [|exact Hp].
        rewrite Heq. apply prefix_app_r. reflexivity.
Qed.

(** *** Stored videos do not change *)

Lemma sameAsset_refl v : sameAsset v v.
Proof. unfold sameAsset. repeat split; lia. Qed.

Lemma sameAsset_trans v1 v2 v3 :
  sameAsset v1 v2 -> sameAsset v2 v3 -> sameAsset v1 v3.
Proof.
  unfold sameAsset. intros (?&?&?&?&?&?&?) (?&?&?&?&?&?&?).
  repeat split; try congruence. lia.
Qed.

Lemma sameAsset_handle rq sess db i v :
  videos db !! i = Some v ->
  exists v',
    videos (database (handle rq sess db)) !! i = Some v' /\ sameAsset v v'.
Proof.
  intros Hi.
  destruct (videos_handle rq sess db)
    as [->|[(name & cat & f & newId & _ & _ & ->)
           |(videoId & o & j & w & _ & _ & Hfound & ->)]].
  - exists v. split; [exact Hi|apply sameAsset_refl].
  - exists v. split; [apply lookup_app_l_Some; exact Hi|apply sameAsset_refl].
  - apply Video_findById_Some in Hfound as [Hj _].
    destruct (decide (j = i)) as [->|Hne].
    + assert (w = v) as -> by congruence.
      exists (set_views (views v + 1) v). split.
      * apply list_lookup_insert_eq. eapply lookup_lt_Some. exact Hi.
      * unfold sameAsset. cbn. repeat split. lia.
    + exists v. split; [|apply sameAsset_refl].
      rewrite list_lookup_insert_ne by exact Hne. exact Hi.
Qed.

(** X3. A stored video is never altered or removed: after any sequence of
    requests the document at each position is the one that was there, with
    the same identifier, name, category, file name, content type and payload;
    only its view counter may differ, and it has not decreased. *)
Theorem stored_videos_immutable :
  forall rqs db i v,
    videos db !! i = Some v ->
    exists v', videos (run rqs db).2 !! i = Some v' /\ sameAsset v v'.
Proof.
  induction rqs as [|[rq sess] rest IH]; intros db i v Hi.
  - exists v. split; [exact Hi|apply sameAsset_refl].
  - cbn [run snd].
    destruct (sameAsset_handle rq sess db i v Hi) as (v1 & Hi1 & Hs1).
    destruct (IH _ i v1 Hi1) as (v' & Hi' & Hs').
    exists v'. split; [exact Hi'|]. eapply sameAsset_trans; eassumption.
Qed.

(** *** Signups are counted *)

Lemma sumCounts_updateHistory t1 t2 h :
  sumCounts (updateHistory t1 t2 h) = sumCounts h + 1.
Proof.
  unfold sumCounts. induction h as [|x h IH].
  - reflexivity.
  - rewrite updateHistory_cons.
    destruct (decide (isoDate (date x) = isoDate t1)).
    + cbn. lia.
    + cbn in IH |- *. rewrite IH. lia.
Qed.

Lemma counts_positive_updateHistory t1 t2 h :
  Forall (fun entry => 1 <= count entry) h ->
  Forall (fun entry => 1 <= count entry) (updateHistory t1 t2 h).
Proof.
  induction 1 as [|x h Hx Hh IH].
  - rewrite updateHistory_nil. repeat constructor. cbn. lia.
  - rewrite updateHistory_cons.
    destruct (decide (isoDate (date x) = isoDate t1)).
    + constructor; [cbn; lia|exact Hh].
    + constructor; assumption.
Qed.

(** The signup of a request: 1 when it is a signup answered 200. *)
Definition signupOf (rq : Request) (r : Response) : Z :=
  match rq with
  | PostSignup _ _ _ _ _ _ => if ok r then 1 else 0
  | _ => 0
  end.

Lemma signups_handle rq sess db st :
  stats db = Some st ->
  exists st',
    stats (database (handle rq sess db)) = Some st' /\
    totalSignups st' =
      totalSignups st + signupOf rq (response (handle rq sess db)) /\
    sumCounts (signupHistory st') =
      sumCounts (signupHistory st) + signupOf rq (response (handle rq sess db)) /\
    (Forall (fun entry => 1 <= count entry) (signupHistory st) ->
     Forall (fun entry => 1 <= count entry) (signupHistory st')) /\
    Z.of_nat (length (users (database (handle rq sess db)))) =
      Z.of_nat (length (users db)) + signupOf rq (response (handle rq sess db)).
Proof.
  clear cast_toString. intros Hst. unfold database, response.
  destruct rq as [em pw rl hp t1 t2|em pw| |videoId|name cat file newId| |cat
                 |videoId| | ]; cbn [handle signupOf].
  - unfold post_signup. destruct (validateInput em pw); cbn [negb].
    + unfold User_insert. destruct (_ && _).
      * unfold set_users. cbn [stats]. rewrite Hst. cbn [fst snd ok stats set_stats].
        eexists. split; [reflexivity|].
        cbn [signupStats totalSignups signupHistory users].
        split; [reflexivity|]. split; [apply sumCounts_updateHistory|].
        split; [apply counts_positive_updateHistory|].
        unfold set_stats. cbn [users]. rewrite length_app. cbn [length]. lia.
      * exists st. cbn. repeat split; try lia; try assumption. auto.
    + exists st. cbn. repeat split; try lia; try assumption. auto.
  - exists st. unfold post_login. destruct (User_findOne em db) as [[? user]|];
      [destruct (bcrypt_compare _ _)|]; cbn;
      (repeat split; try lia; try assumption; auto).
  - exists st. unfold get_account.
    destruct sess; cbn; (repeat split; try lia; try assumption; auto).
  - exists st. unfold post_toggle_favorite. destruct sess as [su|];
      [|cbn; repeat split; try lia; try assumption; auto].
    destruct (User_findOne _ db) as [[i user]|];
      [|cbn; repeat split; try lia; try assumption; auto].
    destruct (toggle _ _); cbn; rewrite ?length_insert;
      (repeat split; try lia; try assumption; auto).
  - exists st. unfold post_upload. destruct file as [f|];
      [|cbn; repeat split; try lia; try assumption; auto].
    unfold Video_insert. destruct (bool_decide _); cbn;
      (repeat split; try lia; try assumption; auto).
  - exists st. cbn. repeat split; try lia; try assumption; auto.
  - exists st. cbn. repeat split; try lia; try assumption; auto.
  - unfold get_video. destruct (castObjectId videoId) as [o|];
      [|exists st; cbn; repeat split; try lia; try assumption; auto].
    destruct (Video_findById o db) as [[i v]|];
      [|exists st; cbn; repeat split; try lia; try assumption; auto].
    unfold set_videos. cbn [stats]. rewrite Hst. cbn.
    eexists. split; [reflexivity|]. cbn. unfold sumCounts.
    repeat split; try lia; auto.
  - unfold get_home. rewrite Hst. cbn. eexists. split; [reflexivity|].
    cbn. unfold sumCounts. repeat split; try lia; auto.
  - exists st. cbn. repeat split; try lia; try assumption; auto.
Qed.

Lemma successfulSignups_cons rq sess rest db :
  successfulSignups ((rq, sess) :: rest) db =
  signupOf rq (response (handle rq sess db))
  + successfulSignups rest (database (handle rq sess db)).
Proof. destruct rq; reflexivity. Qed.

Lemma signups_run rqs : forall db st,
  stats db = Some st ->
  exists st',
    stats (run rqs db).2 = Some st' /\
    totalSignups st' = totalSignups st + successfulSignups rqs db /\
    sumCounts (signupHistory st') =
      sumCounts (signupHistory st) + successfulSignups rqs db /\
    (Forall (fun entry => 1 <= count entry) (signupHistory st) ->
     Forall (fun entry => 1 <= count entry) (signupHistory st')) /\
    Z.of_nat (length (users (run rqs db).2)) =
      Z.of_nat (length (users db)) + successfulSignups rqs db.
Proof.
  induction rqs as [|[rq sess] rest IH]; intros db st Hst.
  - exists st. cbn. repeat split; try lia; auto.
  - destruct (signups_handle rq sess db st Hst) as (st1 & Hst1 & Ht1 & Hs1 & Hp1 & Hu1).
    destruct (IH _ st1 Hst1) as (st' & Hst' & Ht' & Hs' & Hp' & Hu').
    exists st'. rewrite successfulSignups_cons. cbn [run snd].
    split; [exact Hst'|]. split; [lia|]. split; [lia|]. split; [auto|lia].
Qed.

(** X4. With the Stats document in place, after any sequence of requests
    [totalSignups] has grown by the number of signups answered 200, and so
    has the number of user documents: every counted signup stored a user and
    every stored user was counted. *)
Theorem signups_counted_once :
  forall rqs db st,
    stats db = Some st ->
    exists st',
      stats (run rqs db).2 = Some st' /\
      totalSignups st' = totalSignups st + successfulSignups rqs db /\
      Z.of_nat (length (users (run rqs db).2)) =
        Z.of_nat (length (users db)) + successfulSignups rqs db.
Proof.
  intros rqs db st Hst.
  destruct (signups_run rqs db st Hst) as (st' & H1 & H2 & _ & _ & H5).
  exists st'. repeat split; assumption.
Qed.

(** X5. The histogram accounts for every signup: if [totalSignups] is the
    sum of the counts of the history and no entry has a count below 1, the
    same holds after any sequence of requests. It holds of the empty Stats
    document. *)
Theorem histogram_sums_to_totalSignups :
  (forall rqs db st,
      stats db = Some st ->
      totalSignups st = sumCounts (signupHistory st) ->
      Forall (fun entry => 1 <= count entry) (signupHistory st) ->
      exists st',
        stats (run rqs db).2 = Some st' /\
        totalSignups st' = sumCounts (signupHistory st') /\
        Forall (fun entry => 1 <= count entry) (signupHistory st')) /\
  totalSignups emptyStats = sumCounts (signupHistory emptyStats).
Proof.
  split; [|reflexivity].
  intros rqs db st Hst Hsum Hpos.
  destruct (signups_run rqs db st Hst) as (st' & H1 & H2 & H3 & H4 & _).
  exists st'. split; [exact H1|]. split; [lia|auto].
Qed.

(** *** Signup, then login *)

Lemma User_findOne_appended e u db :
  User_findOne e db = None -> email u = e ->
  User_findOne e (set_users (users db ++ [u]) db) = Some (length (users db), u).
Proof.
  unfold User_findOne. intros Hfree He. cbn [users set_users].
  rewrite list_find_app_r by exact Hfree. cbn [list_find].
  rewrite decide_True by exact He. reflexivity.
Qed.

(** X6. After a signup answered 200, a login with the same email and a
    password that bcrypt accepts against the stored digest is answered 200
    with the role given at signup, and the session then holds that email,
    that role and no favorites; a password bcrypt rejects is answered 400,
    with the very reply given for an email nobody registered, and leaves the
    session as it was. Neither login changes the database. *)
Theorem signup_then_login :
  forall em pw rl hp t1 t2 sess db,
    ok (response (post_signup em pw rl hp t1 t2 sess db)) = true ->
    let db' := database (post_signup em pw rl hp t1 t2 sess db) in
    (forall pw' sess',
        bcrypt_compare pw' hp = true ->
        post_login em pw' sess' db' =
          (Reply 200 (JsonRole rl),
           Some {| s_email := em; s_role := rl; s_favorites := Some [] |},
           db')) /\
    (forall pw' sess',
        bcrypt_compare pw' hp = false ->
        post_login em pw' sess' db' =
          (Reply 400 (JsonMessage "Invalid email or password."), sess', db')) /\
    (forall em' pw' sess',
        User_findOne em' db' = None ->
        post_login em' pw' sess' db' =
          (Reply 400 (JsonMessage "Invalid email or password."), sess', db')).
Proof.
  intros em pw rl hp t1 t2 sess db Hok db'.
  destruct (post_signup_ok _ _ _ _ _ _ _ _ Hok) as (st & Hst & _ & Hfree & Heq).
  assert (User_findOne em db' =
          Some (length (users db),
                {| email := em; password := hp; role := rl; favorites := [] |}))
    as Hfound.
  { subst db'. rewrite Heq. cbn [database snd].
    apply (User_findOne_appended em _ db Hfree). reflexivity. }
  split; [|split].
  - intros pw' sess' Hpw. unfold post_login. rewrite Hfound.
    cbn [password role favorites]. rewrite Hpw. reflexivity.
  - intros pw' sess' Hpw. unfold post_login. rewrite Hfound.
    cbn [password]. rewrite Hpw. reflexivity.
  - intros em' pw' sess' Hnone. unfold post_login. rewrite Hnone. reflexivity.
Qed.

(** *** All or nothing *)

(** X7. With the Stats document in place, a request that is not answered
    200 changes neither the database nor the session. Whether or not Stats
    exists, a request answered with a status from 400 to 499 changes
    neither. *)
Theorem failed_request_changes_nothing :
  (forall rq sess db st,
      stats db = Some st ->
      ok (response (handle rq sess db)) = false ->
      database (handle rq sess db) = db /\ session (handle rq sess db) = sess) /\
  (forall rq sess db status body,
      response (handle rq sess db) = Reply status body ->
      (400 <= status < 500)%nat ->
      database (handle rq sess db) = db /\ session (handle rq sess db) = sess).
Proof.
  clear cast_toString. split.
  - intros rq sess db st Hst. unfold database, session, response.
    destruct rq as [em pw rl hp t1 t2|em pw| |videoId|name cat file newId| |cat
                   |videoId| | ]; cbn [handle].
    + unfold post_signup. destruct (validateInput em pw); cbn [negb]; [|split; reflexivity].
      unfold User_insert. destruct (_ && _); [|split; reflexivity].
      unfold set_users. cbn [stats]. rewrite Hst. discriminate.
    + unfold post_login. destruct (User_findOne em db) as [[? user]|];
        [destruct (bcrypt_compare _ _)|]; (discriminate || split; reflexivity).
    + unfold get_account. destruct sess; split; reflexivity.
    + unfold post_toggle_favorite. destruct sess as [su|]; [|split; reflexivity].
      destruct (User_findOne _ db) as [[i user]|]; [|split; reflexivity].
      destruct (toggle _ _); [discriminate|split; reflexivity].
    + unfold post_upload. destruct file as [f|]; [|split; reflexivity].
      unfold Video_insert. destruct (bool_decide _); [discriminate|split; reflexivity].
    + discriminate.
    + discriminate.
    + unfold get_video. destruct (castObjectId videoId) as [o|]; [|split; reflexivity].
      destruct (Video_findById o db) as [[i v]|]; [|split; reflexivity].
      unfold set_videos. cbn [stats]. rewrite Hst. discriminate.
    + unfold get_home. rewrite Hst. discriminate.
    + discriminate.
  - intros rq sess db status body. unfold database, session, response.
    destruct rq as [em pw rl hp t1 t2|em pw| |videoId|name cat file newId| |cat
                   |videoId| | ]; cbn [handle].
    + unfold post_signup. destruct (validateInput em pw); cbn [negb];
        [|split; reflexivity].
      unfold User_insert. destruct (_ && _);
        [|intros [= <- _]; cbn [fst]; lia].
      unfold set_users. cbn [stats].
      destruct (stats db); intros [= <- _]; cbn [fst]; lia.
    + unfold post_login. destruct (User_findOne em db) as [[? user]|];
        [destruct (bcrypt_compare _ _)|]; try (split; reflexivity).
      intros [= <- _]; cbn [fst]; lia.
    + unfold get_account. destruct sess; split; reflexivity.
    + unfold post_toggle_favorite. destruct sess as [su|]; [|split; reflexivity].
      destruct (User_findOne _ db) as [[i user]|]; [|split; reflexivity].
      destruct (toggle _ _); [|split; reflexivity].
      intros [= <- _]; cbn [fst]; lia.
    + unfold post_upload. destruct file as [f|]; [|split; reflexivity].
      unfold Video_insert. destruct (bool_decide _); [|split; reflexivity].
      intros [= <- _]; cbn [fst]; lia.
    + intros [= <- _]; cbn [fst]; lia.
    + intros [= <- _]; cbn [fst]; lia.
    + unfold get_video. destruct (castObjectId videoId) as [o|]; [|split; reflexivity].
      destruct (Video_findById o db) as [[i v]|]; [|split; reflexivity].
      unfold set_videos. cbn [stats].
      destruct (stats db); intros [= <- _]; cbn [fst]; lia.
    + unfold get_home. destruct (stats db); [|discriminate].
      intros [= <- _]; cbn [fst]; lia.
    + intros [= <- _]; cbn [fst]; lia.
Qed.

(** *** What a toggle touches *)

Lemma toggle_NoDup v favs favs' :
  NoDup favs -> toggle (oidToString v) favs = Some favs' -> NoDup favs'.
Proof.
  intros Hnd. unfold toggle. rewrite includes_elem_of, cast_toString.
  destruct (bool_decide (v ∈ favs)) eqn:Hmem; intros [= <-].
  - apply NoDup_filter. exact Hnd.
  - apply bool_decide_eq_false in Hmem. apply NoDup_snoc_fresh; assumption.
Qed.

(** X8. A toggle by a logged-in client changes nothing but the favorites
    of the user of the session: the videos, the Stats document and every
    other user document stay as they are, and the user keeps email, digest
    and role. The favorites sent back are the ones stored and the ones put in
    the session; for an identifier under its own string they have no
    duplicates if there were none. *)
Theorem toggle_touches_one_user :
  forall videoId su db,
    videos (database (post_toggle_favorite videoId (Some su) db)) = videos db /\
    stats (database (post_toggle_favorite videoId (Some su) db)) = stats db /\
    (forall j u,
        users db !! j = Some u -> email u <> s_email su ->
        users (database (post_toggle_favorite videoId (Some su) db)) !! j
          = Some u) /\
    (forall favs,
        response (post_toggle_favorite videoId (Some su) db) =
          Reply 200 (JsonFavorites favs) ->
        exists i u,
          User_findOne (s_email su) db = Some (i, u) /\
          User_findOne (s_email su)
            (database (post_toggle_favorite videoId (Some su) db)) =
            Some (i, {| email := email u; password := password u;
                        role := role u; favorites := favs |}) /\
          session (post_toggle_favorite videoId (Some su) db) =
            Some {| s_email := s_email su; s_role := s_role su;
                    s_favorites := Some favs |} /\
          (forall v, videoId = oidToString v ->
                     NoDup (favorites u) -> NoDup favs)).
Proof.
  intros videoId su db. unfold post_toggle_favorite, database, session, response.
  destruct (User_findOne (s_email su) db) as [[i user]|] eqn:Hu.
  2:{ repeat split; try discriminate. intros; assumption. }
  destruct (toggle videoId (favorites user)) as [favs|] eqn:Ht.
  2:{ repeat split; try discriminate. intros; assumption. }
  cbn [fst snd videos stats set_users users].
  split; [reflexivity|]. split; [reflexivity|]. split.
  - intros j u Hj Hne. rewrite list_lookup_insert_ne; [exact Hj|].
    intros ->. apply User_findOne_email in Hu as He.
    unfold User_findOne in Hu. apply list_find_Some in Hu as (Hi & _ & _).
    congruence.
  - intros favs0 [= <-]. exists i, user. split; [reflexivity|]. split.
    + apply (User_findOne_update _ db i user); [exact Hu|].
      exact (User_findOne_email _ _ _ _ Hu).
    + split; [reflexivity|]. intros v -> Hnd.
      exact (toggle_NoDup v _ _ Hnd Ht).
Qed.

(** *** Listings *)

(** X9. The listing of all videos has one record per stored video, the
    listing of a category is a sublist of it, and an upload answered 200 adds
    the record of the new video at the end of the full listing and of the
    listing of its category, and to no other listing. *)
Theorem listings_compose :
  forall db,
    length (Video_find None "filename podcastName _id" db) =
      length (videos db) /\
    (forall cat,
        Video_find (Some cat) "filename podcastName _id" db
        `sublist_of` Video_find None "filename podcastName _id" db) /\
    (forall name cat f newId sess,
        ok (response (post_upload name cat (Some f) newId sess db)) = true ->
        let db' := database (post_upload name cat (Some f) newId sess db) in
        let record :=
          [("_id", JObjectId newId); ("podcastName", JString name);
           ("filename", JString (originalname f))] in
        Video_find None "filename podcastName _id" db' =
          Video_find None "filename podcastName _id" db ++ [record] /\
        Video_find (Some cat) "filename podcastName _id" db' =
          Video_find (Some cat) "filename podcastName _id" db ++ [record] /\
        (forall other, other <> cat ->
            Video_find (Some other) "filename podcastName _id" db' =
              Video_find (Some other) "filename podcastName _id" db)).
Proof.
  clear cast_toString. intros db. rewrite !Video_find_listed.
  split; [apply length_map|]. split.
  - intros cat. rewrite !Video_find_listed.
    apply (fmap_sublist listed). apply sublist_filter.
  - intros name cat f newId sess. unfold post_upload.
    destruct (Video_insert _ db) as [db1|] eqn:Hins; [|discriminate].
    intros _. cbn zeta. cbn [database snd].
    apply Video_insert_Some in Hins as [_ ->].
    rewrite !Video_find_listed. cbn [videos set_videos].
    split; [rewrite map_app; reflexivity|]. split.
    + rewrite filter_app, filter_cons, decide_True by reflexivity.
      rewrite filter_nil, map_app. reflexivity.
    + intros other Hne. rewrite Video_find_listed. cbn [videos set_videos].
      rewrite filter_app, filter_cons, decide_False by (cbn; congruence).
      rewrite filter_nil, app_nil_r. reflexivity.
Qed.

(** *** When the Stats document is missing *)

(** X10. Without a Stats document the handlers still write what they write
    before they read it: a valid signup with a free email stores the user and
    is answered 500, so that the same signup sent again is refused as a
    duplicate; a fetch of a stored video adds one to its counter and is
    answered 500; a visit of the home page gets no reply and changes nothing.
    Once [initializeStats] has run, the home page is answered 200, and
    [initializeStats] leaves a database that has a Stats document as it
    is. *)
Theorem missing_stats_partial_effects :
  (forall em pw rl hp t1 t2 sess db,
      stats db = None ->
      validateInput em pw = true -> hp <> "" -> rl <> "" ->
      User_findOne em db = None ->
      let r := post_signup em pw rl hp t1 t2 sess db in
      response r =
        Reply 500 (JsonMessage
          "Error creating user. This email might already be registered.") /\
      users (database r) =
        users db ++
        [{| email := em; password := hp; role := rl; favorites := [] |}] /\
      stats (database r) = None /\
      forall t1' t2' sess',
        post_signup em pw rl hp t1' t2' sess' (database r) =
          (response r, sess', database r)) /\
  (forall o sess db i v,
      stats db = None -> Video_findById o db = Some (i, v) ->
      response (get_video (oidToString o) sess db) =
        Reply 500 (Text "Error retrieving video.") /\
      viewsOf o (database (get_video (oidToString o) sess db)) =
        Some (views v + 1)) /\
  (forall sess db,
      stats db = None -> get_home sess db = (NoReply, sess, db)) /\
  (forall sess db,
      ok (response (get_home sess (initializeStats db))) = true) /\
  (forall db st, stats db = Some st -> initializeStats db = db).
Proof.
  split; [|split; [|split; [|split]]].
  - intros em pw rl hp t1 t2 sess db Hst Hvalid Hhp Hrl Hfree r.
    assert (em <> "") as Hem.
    { intros ->. vm_compute in Hvalid. discriminate. }
    assert (r = (Reply 500 (JsonMessage
                   "Error creating user. This email might already be registered."),
                 sess,
                 set_users (users db ++
                   [{| email := em; password := hp; role := rl;
                       favorites := [] |}]) db)) as ->.
    { subst r. unfold post_signup, User_insert. rewrite Hvalid.
      cbn [negb email password role].
      rewrite bool_decide_eq_true_2 by auto.
      rewrite bool_decide_eq_true_2 by exact Hfree.
      cbn [andb stats set_users]. rewrite Hst. reflexivity. }
    cbn [response database fst snd users stats set_users].
    split; [reflexivity|]. split; [reflexivity|]. split; [exact Hst|].
    intros t1' t2' sess'. unfold post_signup, User_insert. rewrite Hvalid.
    cbn [negb email].
    rewrite (bool_decide_eq_false_2 (User_findOne em _ = None)).
    + rewrite andb_false_r. reflexivity.
    + rewrite (User_findOne_appended em _ db Hfree) by reflexivity. discriminate.
  - intros o sess db i v Hst Hfound. unfold get_video.
    rewrite cast_toString, Hfound, stats_set_videos, Hst.
    cbn [response database fst snd]. split; [reflexivity|].
    unfold viewsOf.
    destruct (Video_findById_Some _ _ _ _ Hfound) as [_ Hid].
    rewrite (Video_findById_insert o db i v (set_views (views v + 1) v) Hfound Hid).
    reflexivity.
  - intros sess db Hst. unfold get_home. rewrite Hst. reflexivity.
  - intros sess db. unfold get_home, initializeStats.
    destruct (stats db) as [st|] eqn:Hst; [rewrite Hst|]; reflexivity.
  - intros db st Hst. unfold initializeStats. rewrite Hst. reflexivity.
Qed.

(** *** Views served in sequence *)

(** X19. Served one after the other, with the Stats document in place: a
    video fetch answered 200 adds exactly one to the counter of the fetched
    video, leaves its other fields and every other video as they were, and
    adds exactly one to [totalViews], leaving the signup fields alone; a
    visit of the home page is answered 200, adds one to [totalViews] and
    changes no video; and after any sequence of requests [totalViews] has
    grown by the number of view-recording requests answered 200, so from an
    empty Stats document it equals that number. It can differ from the sum
    of the per-video counters. *)
Theorem views_counted_in_sequence :
  (forall videoId sess db st,
      stats db = Some st ->
      ok (response (get_video videoId sess db)) = true ->
      exists o i v v' st',
        castObjectId videoId = Some o /\
        Video_findById o db = Some (i, v) /\
        videos (database (get_video videoId sess db)) !! i = Some v' /\
        views v' = views v + 1 /\
        sameAsset v v' /\
        (forall j, j <> i ->
            videos (database (get_video videoId sess db)) !! j =
            videos db !! j) /\
        length (videos (database (get_video videoId sess db))) =
          length (videos db) /\
        stats (database (get_video videoId sess db)) = Some st' /\
        totalViews st' = totalViews st + 1 /\
        totalSignups st' = totalSignups st /\
        signupHistory st' = signupHistory st) /\
  (forall sess db st,
      stats db = Some st ->
      ok (response (get_home sess db)) = true /\
      videos (database (get_home sess db)) = videos db /\
      exists st',
        stats (database (get_home sess db)) = Some st' /\
        totalViews st' = totalViews st + 1 /\
        totalSignups st' = totalSignups st /\
        signupHistory st' = signupHistory st) /\
  (forall rqs db st,
      stats db = Some st ->
      exists st',
        stats (run rqs db).2 = Some st' /\
        totalViews st' = totalViews st + successfulViews rqs db) /\
  (forall rqs db,
      stats db = Some emptyStats ->
      exists st',
        stats (run rqs db).2 = Some st' /\
        totalViews st' = successfulViews rqs db) /\
  (exists rqs db st',
      stats db = Some emptyStats /\ videos db = [] /\
      stats (run rqs db).2 = Some st' /\
      totalViews st' = 1 /\ sumViews (run rqs db).2 = 0).
Proof.
  clear cast_toString. split; [|split; [|split; [|split]]].
  - intros videoId sess db st Hst. unfold get_video.
    destruct (castObjectId videoId) as [o|]; [|discriminate].
    destruct (Video_findById o db) as [[i v]|] eqn:Hfound; [|discriminate].
    unfold set_videos. cbn [stats]. rewrite Hst. intros _.
    cbn [database snd videos stats set_stats].
    unfold Video_findById in Hfound. apply list_find_Some in Hfound as Hf.
    destruct Hf as (Hi & _ & _).
    exists o, i, v, (set_views (views v + 1) v),
      (set_totalViews (totalViews st + 1) st).
    split; [reflexivity|]. split; [exact Hfound|]. split.
    { apply list_lookup_insert_eq. eapply lookup_lt_Some. exact Hi. }
    split; [reflexivity|]. split.
    { unfold sameAsset. cbn. repeat split. lia. }
    split.
    { intros j Hj. apply list_lookup_insert_ne. congruence. }
    split; [apply length_insert|]. repeat split.
  - intros sess db st Hst. unfold get_home. rewrite Hst.
    split; [reflexivity|]. split; [reflexivity|].
    eexists. repeat split.
  - intros rqs db st. apply totalViews_run.
  - intros rqs db Hst. destruct (totalViews_run rqs db _ Hst) as (st' & H1 & H2).
    exists st'. split; [exact H1|]. cbn in H2. lia.
  - exists [(GetHome, None)],
      {| users := []; videos := []; stats := Some emptyStats |}.
    eexists. cbn. repeat split.
Qed.

(** *** Per-video counters *)

(** The fetch of video [o] by a request: 1 when the request fetches [o] and
    is answered 200. *)
Definition fetchOf (o : ObjectId) (rq : Request) (r : Response) : Z :=
  match rq with
  | GetVideo videoId =>
      if decide (castObjectId videoId = Some o) then if ok r then 1 else 0
      else 0
  | _ => 0
  end.

(** The number of fetches of video [o] in a run that were answered 200. *)
Fixpoint fetches (o : ObjectId) (rqs : list (Request * Session)) (db : DB) : Z :=
  match rqs with
  | [] => 0
  | (rq, sess) :: rest =>
      let r := handle rq sess db in
      fetchOf o rq (response r) + fetches o rest (database r)
  end.

Lemma NoDup_videoIds_lookup db i j v w :
  NoDup (videoIds db) ->
  videos db !! i = Some v -> videos db !! j = Some w -> _id v = _id w -> i = j.
Proof.
  intros Hnd Hi Hj Hid. unfold videoIds in Hnd.
  apply (NoDup_lookup _ i j (_id v) Hnd).
  - rewrite list_lookup_fmap, Hi. reflexivity.
  - rewrite list_lookup_fmap, Hj, Hid. reflexivity.
Qed.

Lemma views_handle rq sess db st i v :
  NoDup (videoIds db) -> stats db = Some st ->
  videos db !! i = Some v ->
  exists v',
    videos (database (handle rq sess db)) !! i = Some v' /\
    _id v' = _id v /\
    views v' = views v + fetchOf (_id v) rq (response (handle rq sess db)).
Proof.
  clear cast_toString. intros Hnd Hst Hi. unfold database, response.
  destruct rq as [em pw rl hp t1 t2|em pw| |videoId|name cat file newId| |cat
                 |videoId| | ]; cbn [handle fetchOf].
  - exists v. unfold post_signup. destruct (validateInput em pw); cbn [negb].
    + unfold User_insert. destruct (_ && _).
      * unfold set_users. cbn [stats]. rewrite Hst. cbn.
        repeat split; [exact Hi|lia].
      * cbn. repeat split; [exact Hi|lia].
    + cbn. repeat split; [exact Hi|lia].
  - exists v. unfold post_login. destruct (User_findOne em db) as [[? user]|];
      [destruct (bcrypt_compare _ _)|]; cbn; (repeat split; [exact Hi|lia]).
  - exists v. unfold get_account. destruct sess; cbn;
      (repeat split; [exact Hi|lia]).
  - exists v. unfold post_toggle_favorite. destruct sess as [su|];
      [|cbn; repeat split; [exact Hi|lia]].
    destruct (User_findOne _ db) as [[k user]|];
      [|cbn; repeat split; [exact Hi|lia]].
    destruct (toggle _ _); cbn; (repeat split; [exact Hi|lia]).
  - exists v. unfold post_upload. destruct file as [f|];
      [|cbn; repeat split; [exact Hi|lia]].
    unfold Video_insert. destruct (bool_decide _); cbn;
      (repeat split; [|lia]); [apply lookup_app_l_Some|]; exact Hi.
  - exists v. cbn. repeat split; [exact Hi|lia].
  - exists v. cbn. repeat split; [exact Hi|lia].
  - unfold get_video. destruct (castObjectId videoId) as [o|] eqn:Hcast.
    2:{ exists v. rewrite decide_False by discriminate. cbn.
        repeat split; [exact Hi|lia]. }
    destruct (Video_findById o db) as [[j w]|] eqn:Hfound.
    2:{ exists v. cbn. repeat split; [exact Hi|].
        destruct (decide _); lia. }
    rewrite stats_set_videos, Hst. cbn [fst snd ok videos set_stats set_videos].
    destruct (Video_findById_Some _ _ _ _ Hfound) as [Hj Hid].
    destruct (decide (Some o = Some (_id v))) as [[= Ho]|Hne].
    + assert (i = j) as <-
        by (apply (NoDup_videoIds_lookup db i j v w Hnd Hi Hj); congruence).
      assert (w = v) as -> by congruence.
      exists (set_views (views v + 1) v). split; [|split; reflexivity].
      apply list_lookup_insert_eq. eapply lookup_lt_Some. exact Hi.
    + exists v. split; [|split; [reflexivity|lia]].
      rewrite list_lookup_insert_ne; [exact Hi|].
      intros <-. apply Hne. congruence.
  - exists v. unfold get_home. rewrite Hst. cbn. repeat split; [exact Hi|lia].
  - exists v. cbn. repeat split; [exact Hi|lia].
Qed.

(** X12. With the Stats document in place and no two videos under one
    identifier, after any sequence of requests the view counter of a stored
    video has grown by exactly the number of fetches of that video that were
    answered 200. *)
Theorem views_count_fetches :
  forall rqs db st i v,
    NoDup (videoIds db) -> stats db = Some st ->
    videos db !! i = Some v ->
    exists v',
      videos (run rqs db).2 !! i = Some v' /\
      views v' = views v + fetches (_id v) rqs db.
Proof.
  induction rqs as [|[rq sess] rest IH]; intros db st i v Hnd Hst Hi.
  - exists v. cbn. split; [exact Hi|lia].
  - destruct (views_handle rq sess db st i v Hnd Hst Hi) as (v1 & Hi1 & Hid1 & Hv1).
    destruct (totalViews_handle rq sess db st Hst) as (st1 & Hst1 & _).
    assert (NoDup (videoIds (database (handle rq sess db)))) as Hnd1.
    { destruct (videoIds_handle rq sess db) as [->|(o & Hfresh & ->)];
        [exact Hnd|apply NoDup_snoc_fresh; assumption]. }
    destruct (IH _ st1 i v1 Hnd1 Hst1 Hi1) as (v' & Hi' & Hv').
    exists v'. cbn [run snd fetches]. split; [exact Hi'|].
    rewrite Hid1 in Hv'. lia.
Qed.

(** *** Total views, video by video *)

(** The number of visits of the home page in a run that were answered 200. *)
Fixpoint homeVisits (rqs : list (Request * Session)) (db : DB) : Z :=
  match rqs with
  | [] => 0
  | (rq, sess) :: rest =>
      let r := handle rq sess db in
      (match rq with
       | GetHome => if ok (response r) then 1 else 0
       | _ => 0
       end)
      + homeVisits rest (database r)
  end.

Lemma sumViews_insert (l : list Video) i v :
  l !! i = Some v ->
  foldr Z.add 0 (map views (<[i := set_views (views v + 1) v]> l)) =
  foldr Z.add 0 (map views l) + 1.
Proof.
  revert i. induction l as [|x l IH]; intros [|i] Hi; try discriminate.
  - injection Hi as ->. cbn. lia.
  - change (l !! i = Some v) in Hi.
    change (foldr Z.add 0 (map views (<[S i := set_views (views v + 1) v]> (x :: l))))
      with (views x + foldr Z.add 0 (map views (<[i := set_views (views v + 1) v]> l))).
    rewrite (IH i Hi). cbn [map foldr]. lia.
Qed.

Lemma sumViews_snoc (l : list Video) v :
  foldr Z.add 0 (map views (l ++ [v])) = foldr Z.add 0 (map views l) + views v.
Proof. induction l as [|x l IH]; cbn; [lia|]. rewrite IH. lia. Qed.

Lemma views_split_handle rq sess db st :
  stats db = Some st ->
  exists st',
    stats (database (handle rq sess db)) = Some st' /\
    totalViews st' - totalViews st =
      (sumViews (database (handle rq sess db)) - sumViews db)
      + match rq with
        | GetHome => if ok (response (handle rq sess db)) then 1 else 0
        | _ => 0
        end.
Proof.
  clear cast_toString. intros Hst. unfold database, response, sumViews.
  destruct rq as [em pw rl hp t1 t2|em pw| |videoId|name cat file newId| |cat
                 |videoId| | ]; cbn [handle].
  - unfold post_signup. destruct (validateInput em pw); cbn [negb].
    + unfold User_insert. destruct (_ && _).
      * unfold set_users. cbn [stats]. rewrite Hst. cbn.
        eexists. split; [reflexivity|]. cbn. lia.
      * exists st. cbn. split; [exact Hst|lia].
    + exists st. cbn. split; [exact Hst|lia].
  - exists st. unfold post_login. destruct (User_findOne em db) as [[? user]|];
      [destruct (bcrypt_compare _ _)|]; cbn; (split; [exact Hst|lia]).
  - exists st. unfold get_account. destruct sess; cbn; (split; [exact Hst|lia]).
  - exists st. unfold post_toggle_favorite. destruct sess as [su|];
      [|cbn; split; [exact Hst|lia]].
    destruct (User_findOne _ db) as [[i user]|]; [|cbn; split; [exact Hst|lia]].
    destruct (toggle _ _); cbn; (split; [exact Hst|lia]).
  - exists st. unfold post_upload. destruct file as [f|];
      [|cbn; split; [exact Hst|lia]].
    unfold Video_insert. destruct (bool_decide _); cbn [snd videos set_videos];
      (split; [exact Hst|]); [|lia].
    rewrite sumViews_snoc. cbn [views]. lia.
  - exists st. cbn. split; [exact Hst|lia].
  - exists st. cbn. split; [exact Hst|lia].
  - unfold get_video. destruct (castObjectId videoId) as [o|];
      [|exists st; cbn; split; [exact Hst|lia]].
    destruct (Video_findById o db) as [[i v]|] eqn:Hfound;
      [|exists st; cbn; split; [exact Hst|lia]].
    rewrite stats_set_videos, Hst. cbn [snd stats set_stats videos set_videos].
    eexists. split; [reflexivity|].
    apply Video_findById_Some in Hfound as [Hi _].
    rewrite (sumViews_insert _ i v Hi). cbn. lia.
  - unfold get_home. rewrite Hst. cbn. eexists. split; [reflexivity|]. cbn. lia.
  - exists st. cbn. split; [exact Hst|lia].
Qed.

(** X16. With the Stats document in place, over any sequence of requests
    the growth of [totalViews] is the growth of the sum of the per-video
    counters plus the number of visits of the home page. *)
Theorem totalViews_is_videos_plus_home :
  forall rqs db st,
    stats db = Some st ->
    exists st',
      stats (run rqs db).2 = Some st' /\
      totalViews st' - totalViews st =
        (sumViews (run rqs db).2 - sumViews db) + homeVisits rqs db.
Proof.
  induction rqs as [|[rq sess] rest IH]; intros db st Hst.
  - exists st. cbn. split; [exact Hst|lia].
  - destruct (views_split_handle rq sess db st Hst) as (st1 & Hst1 & H1).
    destruct (IH _ st1 Hst1) as (st' & Hst' & H').
    exists st'. cbn [run snd]. split; [exact Hst'|].
    change (homeVisits ((rq, sess) :: rest) db)
      with ((match rq with
             | GetHome => if ok (response (handle rq sess db)) then 1 else 0
             | _ => 0
             end) + homeVisits rest (database (handle rq sess db))).
    lia.
Qed.
End Server.

(** ** The hexadecimal identifiers are an instance *)

Lemma HexId_lowercase_toString o :
  HexId.lowercase (HexId.toString o) = HexId.toString o.
Proof.
  unfold HexId.toString.
  induction o; cbn [NilEmpty.string_of_uint HexId.lowercase HexId.lower];
    rewrite ?IHo; reflexivity.
Qed.

Lemma HexId_cast_toString o : HexId.cast (HexId.toString o) = Some o.
Proof.
  unfold HexId.cast. rewrite HexId_lowercase_toString. apply NilEmpty.usu.
Qed.

(** ** Examples on a small database *)

Module Example.

(** The digest check of the examples: a digest is its password, reversed. *)
Definition compare (pw digest : string) : bool :=
  String.eqb (String.rev pw) digest.

Definition idA : HexId.t := Da (D1 Nil).
Definition idB : HexId.t := Db (D2 Nil).

Definition alice : User :=
  {| email := "alice@pod.io"; password := "1terces"; role := "listener";
     favorites := [idB] |}.

Definition episode : Video :=
  {| _id := idA; podcastName := "Night Talk"; category := "news";
     filename := "night.mp4"; contentType := "video/mp4";
     video := [Byte.x00; Byte.x01; Byte.xff]; views := 0 |}.

Definition db0 : DB :=
  {| users := [alice]; videos := [episode]; stats := Some emptyStats |}.

Definition aliceSession : @SessionUser HexId.t :=
  {| s_email := "alice@pod.io"; s_role := "listener"; s_favorites := None |}.

Definition ghostSession : @SessionUser HexId.t :=
  {| s_email := "ghost@pod.io"; s_role := "listener"; s_favorites := None |}.

Definition clip : File :=
  {| originalname := "clip.webm"; mimetype := "video/webm";
     buffer := [Byte.x1a; Byte.x45; Byte.xdf; Byte.xa3] |}.

(** Two signups on 1 January 1970 and one on the next day. *)
Definition signupBob : @Request HexId.t :=
  PostSignup "bob@pod.io" "secret1" "listener" "1terces" 1000 2000.
Definition signupCarol : @Request HexId.t :=
  PostSignup "carol@pod.io" "secret2" "creator" "2terces" 3000 4000.
Definition signupDave : @Request HexId.t :=
  PostSignup "dave@pod.io" "secret3" "listener" "3terces" 86400000 86400001.

End Example.

Import Example.

Example validateInput_examples :
  validateInput "bob@pod.io" "secret1" = true /\
  validateInput "bob@pod" "secret1" = false /\
  validateInput "bob smith@pod.io" "secret1" = false /\
  validateInput "bob@pod.io" "short" = false /\
  validateInput "a@b@c.io" "secret1" = false /\
  validateInput "bob@mail.pod.io" "secret1" = true.
Proof. vm_compute. repeat split. Qed.

Example words_example :
  words "filename podcastName _id" = ["filename"; "podcastName"; "_id"].
Proof. reflexivity. Qed.

Example isoDate_examples :
  isoDate 0 = 0 /\ isoDate 86399999 = 0 /\ isoDate 86400000 = 1 /\ isoDate (-1) = -1.
Proof. repeat split. Qed.

(** ** The claims on the example database *)


Lemma fetchVideo_absent_witness :
  Forall (fun v => _id v <> idB) (videos db0) /\
  get_video HexId.cast (HexId.toString idB) (Some aliceSession) db0 =
    (Reply 404 (Text "Video not found."), Some aliceSession, db0) /\
  database (get_video HexId.cast "not-an-id" None db0) = db0.
Proof.
  assert (Forall (fun v => _id v <> idB) (videos db0)) as Habsent
    by (repeat constructor; discriminate).
  split; [exact Habsent|]. split.
  - exact (proj1 (fetchVideo_absent HexId.toString HexId.cast HexId_cast_toString)
             idB (Some aliceSession) db0 Habsent).
  - refine (proj1 (proj2 (fetchVideo_absent HexId.toString HexId.cast
                            HexId_cast_toString) "not-an-id" None db0 _)).
    intros o Hcast. discriminate Hcast.
Defined.

Lemma upload_then_fetch_witness :
  Forall (fun v => _id v <> idB) (videos db0) /\
  stats db0 = Some emptyStats /\
  ok (response (post_upload "Morning" "music" (Some clip) idB None db0)) = true /\
  response
    (get_video HexId.cast (HexId.toString idB) (Some aliceSession)
       (database (post_upload "Morning" "music" (Some clip) idB None db0))) =
  Reply 200 (Payload "video/webm" [Byte.x1a; Byte.x45; Byte.xdf; Byte.xa3]).
Proof.
  assert (Forall (fun v => _id v <> idB) (videos db0)) as Hfresh
    by (repeat constructor; discriminate).
  pose proof (upload_then_fetch HexId.toString HexId.cast HexId_cast_toString)
    as [Hup Hfetch].
  pose proof (Hup "Morning" "music" clip idB None db0 Hfresh) as Hok.
  split; [exact Hfresh|]. split; [reflexivity|]. split; [exact Hok|].
  exact (Hfetch "Morning" "music" clip idB None (Some aliceSession) db0
           emptyStats eq_refl Hok).
Defined.

Lemma toggleFavorite_parity_witness :
  User_findOne (s_email aliceSession) db0 = Some (0%nat, alice) /\
  (exists favs2,
      favoritesOf (s_email aliceSession)
        (toggles HexId.toString HexId.cast 2 (HexId.toString idA)
           (Some aliceSession) db0).2 = Some favs2 /\
      forall x, x ∈ favs2 <-> x ∈ favorites alice) /\
  (exists favs3,
      favoritesOf (s_email aliceSession)
        (toggles HexId.toString HexId.cast 3 (HexId.toString idA)
           (Some aliceSession) db0).2 = Some favs3 /\
      bool_decide (idA ∈ favs3) =
        xorb (bool_decide (idA ∈ favorites alice)) (Nat.odd 3) /\
      forall x, x <> idA -> x ∈ favs3 <-> x ∈ favorites alice).
Proof.
  pose proof (toggleFavorite_parity HexId.toString HexId.cast
                HexId_cast_toString aliceSession db0 0%nat alice idA eq_refl)
    as (_ & Htwice & Hk).
  split; [reflexivity|]. split; [exact Htwice|exact (Hk 3%nat)].
Defined.

Lemma histogram_one_entry_per_date_witness :
  stats db0 = Some emptyStats /\
  clock_ok 0 [(signupBob, None); (GetHome, None); (signupCarol, None);
              (signupDave, None)] /\
  oneEntryPerDate
    (history
       (run HexId.toString HexId.cast compare
          [(signupBob, None); (GetHome, None); (signupCarol, None);
           (signupDave, None)] db0).2).
Proof.
  assert (clock_ok 0 [(signupBob, None); (GetHome, None); (signupCarol, None);
                      (signupDave, None)]) as Hclock
    by (cbn; repeat split; discriminate).
  split; [reflexivity|]. split; [exact Hclock|].
  exact (proj1 (histogram_one_entry_per_date HexId.toString HexId.cast compare)
           db0 0 _ eq_refl Hclock).
Defined.

Lemma signup_failure_keeps_stats_witness :
  validateInput "alice@pod.io" "secret9" = true /\
  User_findOne "alice@pod.io" db0 = Some (0%nat, alice) /\
  post_signup "alice@pod.io" "secret9" "creator" "9terces" 1000 2000 None db0 =
    (Reply 500 (JsonMessage
       "Error creating user. This email might already be registered."),
     None, db0) /\
  ok (response (post_signup "eve@pod.io" "secret9" "" "9terces" 1000 2000
                  None db0)) = false /\
  stats (database (post_signup "eve@pod.io" "secret9" "" "9terces" 1000 2000
                     None db0)) = stats db0.
Proof.
  pose proof (@signup_failure_keeps_stats HexId.t) as (_ & Hdup & Hfail).
  split; [reflexivity|]. split; [reflexivity|]. split; [|split; [reflexivity|]].
  - exact (Hdup "alice@pod.io" "secret9" "creator" "9terces" 1000 2000 None db0
             alice 0%nat eq_refl eq_refl).
  - exact (Hfail "eve@pod.io" "secret9" "" "9terces" 1000 2000 None db0 eq_refl).
Defined.

Lemma toggleFavorite_missing_user_witness :
  User_findOne (s_email ghostSession) db0 = None /\
  post_toggle_favorite HexId.toString HexId.cast (HexId.toString idA)
    (Some ghostSession) db0 =
    (Reply 500 (JsonMessage "Error updating favorites."),
     Some ghostSession, db0) /\
  User_findOne (s_email aliceSession) db0 = Some (0%nat, alice) /\
  Video_findById (Dc (D3 Nil)) db0 = None /\
  ok (response
        (post_toggle_favorite HexId.toString HexId.cast
           (HexId.toString (Dc (D3 Nil))) (Some aliceSession) db0)) = true.
Proof.
  pose proof (toggleFavorite_missing_user HexId.toString HexId.cast
                HexId_cast_toString) as [Hmissing Hexists].
  split; [reflexivity|]. split; [|split; [reflexivity|split; [reflexivity|]]].
  - exact (Hmissing ghostSession (HexId.toString idA) db0 eq_refl).
  - exact (Hexists aliceSession db0 0%nat alice (Dc (D3 Nil)) eq_refl).
Defined.

Lemma recordView_lost_update_witness :
  Video_findById idA db0 = Some (0%nat, episode) /\
  stats db0 = Some emptyStats /\
  viewsOf idA db0 = Some 0 /\
  interleave HexId.cast [0; 1; 0; 1; 0; 1; 0; 1]%nat
    [AwaitFindById (HexId.toString idA); AwaitFindById (HexId.toString idA)]
    db0 =
    ([Finished (Reply 200 (Payload (contentType episode) (video episode)));
      Finished (Reply 200 (Payload (contentType episode) (video episode)))],
     database (get_video HexId.cast (HexId.toString idA) None db0)) /\
  viewsOf idA (database (get_video HexId.cast (HexId.toString idA) None db0)) =
    Some (0 + 1) /\
  totalViews <$>
    stats (database (get_video HexId.cast (HexId.toString idA) None db0)) =
    Some (0 + 1).
Proof.
  split; [reflexivity|]. split; [reflexivity|]. split; [reflexivity|].
  exact (recordView_lost_update HexId.toString HexId.cast HexId_cast_toString
           idA None db0 0%nat episode emptyStats eq_refl eq_refl).
Defined.

(** A 24-digit identifier, a user who holds it as a favorite, and a request
    that spells it in upper case. *)
Definition idLong : HexId.t :=
  Eval cbv in default Nil (HexId.cast "64b7f0c2a1d3e4f5a6b7c8d9").

Definition fan : User :=
  {| email := "fan@pod.io"; password := "4terces"; role := "listener";
     favorites := [idLong] |}.

Definition fanSession : @SessionUser HexId.t :=
  {| s_email := "fan@pod.io"; s_role := "listener"; s_favorites := None |}.

Definition dbFan : DB :=
  {| users := [alice; fan]; videos := [episode]; stats := Some emptyStats |}.

Lemma toggleFavorite_spelling_never_flips_witness :
  User_findOne (s_email fanSession) dbFan = Some (1%nat, fan) /\
  HexId.toString idLong = "64b7f0c2a1d3e4f5a6b7c8d9" /\
  HexId.cast "64B7F0C2A1D3E4F5A6B7C8D9" = Some idLong /\
  response
    (post_toggle_favorite HexId.toString HexId.cast
       "64B7F0C2A1D3E4F5A6B7C8D9" (Some fanSession) dbFan) =
    Reply 200 (JsonFavorites [idLong; idLong]) /\
  favoritesOf (s_email fanSession)
    (toggles HexId.toString HexId.cast 1 "64B7F0C2A1D3E4F5A6B7C8D9"
       (Some fanSession) dbFan).2 =
    Some [idLong; idLong] /\
  favoritesOf (s_email fanSession)
    (toggles HexId.toString HexId.cast 2 "64B7F0C2A1D3E4F5A6B7C8D9"
       (Some fanSession) dbFan).2 =
    Some [idLong; idLong; idLong].
Proof.
  assert (HexId.toString idLong <> "64B7F0C2A1D3E4F5A6B7C8D9") as Hne
    by discriminate.
  pose proof (toggleFavorite_spelling_never_flips HexId.toString HexId.cast
                HexId_cast_toString fanSession dbFan 1%nat fan
                "64B7F0C2A1D3E4F5A6B7C8D9" idLong eq_refl eq_refl Hne)
    as (Hfavs & Hresp & _ & _).
  split; [reflexivity|]. split; [reflexivity|]. split; [reflexivity|].
  split; [exact (Hresp 0%nat)|].
  split; [exact (Hfavs 1%nat)|]. exact (Hfavs 2%nat).
Defined.

Lemma histogram_duplicate_date_witness :
  stats
    (database
       (post_signup "bob@pod.io" "secret1" "listener" "1terces"
          86400000 86400000 None db0)) =
    Some {| totalSignups := 1; totalViews := 0;
            signupHistory := [{| date := 86400000; count := 1 |}] |} /\
  ok (response
        (post_signup "carol@pod.io" "secret2" "creator" "2terces"
           86399999 86400000 None
           (database
              (post_signup "bob@pod.io" "secret1" "listener" "1terces"
                 86400000 86400000 None db0)))) = true /\
  exists st',
    stats
      (database
         (post_signup "carol@pod.io" "secret2" "creator" "2terces"
            86399999 86400000 None
            (database
               (post_signup "bob@pod.io" "secret1" "listener" "1terces"
                  86400000 86400000 None db0)))) = Some st' /\
    entriesOn (isoDate 86400000) (signupHistory st') =
      [{| date := 86400000; count := 1 |};
       {| date := 86400000; count := 1 |}] /\
    ~ oneEntryPerDate (signupHistory st').
Proof.
  split; [reflexivity|]. split; [reflexivity|].
  exact (proj1 (histogram_duplicate_date HexId.toString HexId.cast compare)
           "carol@pod.io" "secret2" "creator" "2terces" 86399999 86400000 None
           (database
              (post_signup "bob@pod.io" "secret1" "listener" "1terces"
                 86400000 86400000 None db0))
           _ {| date := 86400000; count := 1 |}
           eq_refl eq_refl eq_refl eq_refl).
Defined.

Lemma totalViews_lost_update_witness :
  Video_findById idA db0 = Some (0%nat, episode) /\
  stats db0 = Some emptyStats /\
  exists final,
    interleave HexId.cast [0; 0; 1; 1; 0; 1; 0; 1]%nat
      [AwaitFindById (HexId.toString idA); AwaitFindById (HexId.toString idA)]
      db0 =
      ([Finished (Reply 200 (Payload (contentType episode) (video episode)));
        Finished (Reply 200 (Payload (contentType episode) (video episode)))],
       final) /\
    viewsOf idA final = Some (views episode + 2) /\
    totalViews <$> stats final = Some (totalViews emptyStats + 1).
Proof.
  split; [reflexivity|]. split; [reflexivity|].
  exact (totalViews_lost_update HexId.toString HexId.cast HexId_cast_toString
           idA db0 0%nat episode emptyStats eq_refl eq_refl).
Defined.

(** C8 as stated fails: the records of the listing are not made of the
    identifier, the name and the category. *)
Lemma listVideos_fields_counterexample :
  ~ (forall docs,
        response (get_videos None db0) = Reply 200 (JsonDocs docs) ->
        Forall
          (fun doc => fieldNames doc ≡ₚ ["_id"; "podcastName"; "category"])
          docs).
Proof.
  intros Hclaim. specialize (Hclaim _ eq_refl).
  apply Forall_cons in Hclaim as [Hperm _]. cbn in Hperm.
  assert ("filename" ∈ ["_id"; "podcastName"; "category"]) as Hin.
  { rewrite <- Hperm. repeat constructor. }
  repeat (apply elem_of_cons in Hin as [Hin|Hin]; [discriminate|]).
  inversion Hin.
Qed.

(** ** Remarks *)

(** Served one after the other, the two fetches of the interleaving above are
    both counted. *)
Example sequential_fetches_example :
  viewsOf idA
    (run HexId.toString HexId.cast compare
       [(GetVideo "a1", None); (GetVideo "a1", None)] db0).2 = Some 2.
Proof. reflexivity. Qed.

(** The toggle compares the route parameter with the strings of the stored
    identifiers. A spelling that casts to an identifier without being its
    string is never found by [includes]: each toggle pushes the identifier
    again. The properties of the toggle are stated for identifiers under
    their own string. *)
Example toggle_other_spelling :
  HexId.cast "A1" = Some idA /\
  HexId.toString idA = "a1" /\
  toggle HexId.toString HexId.cast "A1" [idB] = Some [idB; idA] /\
  toggle HexId.toString HexId.cast "A1" [idB; idA] = Some [idB; idA; idA] /\
  toggle HexId.toString HexId.cast "a1" [idB; idA] = Some [idB].
Proof. repeat split. Qed.

(** [initializeStats] creates the empty document once. *)
Example initializeStats_example :
  stats (initializeStats (set_stats None db0)) = Some emptyStats /\
  initializeStats (initializeStats (set_stats None db0)) =
    initializeStats (set_stats None db0).
Proof. split; reflexivity. Qed.

(** ** Input validation *)

(** The strings a regular expression denotes. *)
Inductive lang : Regex.t -> string -> Prop :=
| lang_Eps : lang Regex.Eps ""
| lang_Class p c : p c = true -> lang (Regex.Class p) (String c "")
| lang_Cat r s u v :
    lang r u -> lang s v -> lang (Regex.Cat r s) (u +:+ v)
| lang_Alt_l r s u : lang r u -> lang (Regex.Alt r s) u
| lang_Alt_r r s u : lang s u -> lang (Regex.Alt r s) u
| lang_Plus_one r u : lang r u -> lang (Regex.Plus r) u
| lang_Plus_more r u v :
    lang r u -> lang (Regex.Plus r) v -> lang (Regex.Plus r) (u +:+ v).

(** Every character of the string satisfies [p]. *)
Fixpoint allChars (p : ascii -> bool) (s : string) : bool :=
  match s with
  | EmptyString => true
  | String c s' => p c && allChars p s'
  end.

(** The number of occurrences of a character. *)
Fixpoint occurrences (a : ascii) (s : string) : nat :=
  match s with
  | EmptyString => 0
  | String c s' => (if Ascii.eqb a c then 1 else 0) + occurrences a s'
  end.

(** A non-empty run of characters other than white space and [@]. *)
Definition emailPart (w : string) : Prop :=
  w <> "" /\ allChars not_space_at w = true.

Lemma append_cons c s t : String c s +:+ t = String c (s +:+ t).
Proof. reflexivity. Qed.

Lemma append_nil_l t : "" +:+ t = t.
Proof. reflexivity. Qed.

Lemma append_nil_r s : s +:+ "" = s.
Proof.
  induction s as [|c s IH]; [reflexivity|]. rewrite append_cons, IH. reflexivity.
Qed.

Lemma append_assoc s t u : (s +:+ t) +:+ u = s +:+ (t +:+ u).
Proof.
  induction s as [|c s IH]; [reflexivity|]. rewrite !append_cons, IH. reflexivity.
Qed.

Lemma append_eq_nil s t : s +:+ t = "" -> s = "" /\ t = "".
Proof. destruct s; [auto|rewrite append_cons; discriminate]. Qed.

Lemma append_eq_cons s t c u :
  s +:+ t = String c u ->
  (s = "" /\ t = String c u) \/ exists s', s = String c s' /\ u = s' +:+ t.
Proof.
  destruct s as [|d s].
  - rewrite append_nil_l. intros ->. left. split; reflexivity.
  - rewrite append_cons. intros [= -> <-]. right. exists s. split; reflexivity.
Qed.

Lemma nullable_lang r : Regex.nullable r = true <-> lang r "".
Proof.
  split.
  - induction r as [| |p|r1 IH1 r2 IH2|r1 IH1 r2 IH2|r IH]; cbn; intros Hn.
    + discriminate.
    + constructor.
    + discriminate.
    + apply andb_true_iff in Hn as [H1 H2].
      exact (lang_Cat r1 r2 "" "" (IH1 H1) (IH2 H2)).
    + apply orb_true_iff in Hn as [H1|H2];
        [apply lang_Alt_l|apply lang_Alt_r]; auto.
    + apply lang_Plus_one. auto.
  - intros Hl. remember "" as e eqn:He.
    induction Hl as [|p c Hp|r s u v Hu IHu Hv IHv|r s u Hu IHu|r s u Hu IHu
                    |r u Hu IHu|r u v Hu IHu Hv IHv]; cbn.
    + reflexivity.
    + discriminate.
    + apply append_eq_nil in He as [-> ->]. rewrite IHu, IHv; reflexivity.
    + rewrite IHu by exact He. reflexivity.
    + rewrite IHu by exact He. apply orb_true_r.
    + auto.
    + apply append_eq_nil in He as [-> _]. auto.
Qed.

Lemma deriv_lang_1 c r : forall s, lang (Regex.deriv c r) s -> lang r (String c s).
Proof.
  induction r as [| |p|r1 IH1 r2 IH2|r1 IH1 r2 IH2|r IH]; cbn; intros s Hl.
  - inversion Hl.
  - inversion Hl.
  - destruct (p c) eqn:Hp; inversion Hl; subst. constructor. exact Hp.
  - destruct (Regex.nullable r1) eqn:Hn.
    + inversion Hl as [| | | ? ? ? Hleft | ? ? ? Hright | |]; subst.
      * inversion Hleft as [| | ? ? u v Hu Hv | | | |]; subst.
        exact (lang_Cat r1 r2 (String c u) v (IH1 _ Hu) Hv).
      * apply nullable_lang in Hn.
        exact (lang_Cat r1 r2 "" (String c s) Hn (IH2 _ Hright)).
    + inversion Hl as [| | ? ? u v Hu Hv | | | |]; subst.
      exact (lang_Cat r1 r2 (String c u) v (IH1 _ Hu) Hv).
  - inversion Hl; subst; [apply lang_Alt_l|apply lang_Alt_r]; auto.
  - inversion Hl as [| | ? ? u v Hu Hv | | | |]; subst.
    inversion Hv as [| | | ? ? ? He | ? ? ? Hp | |]; subst.
    + inversion He; subst. rewrite append_nil_r. apply lang_Plus_one. auto.
    + exact (lang_Plus_more r (String c u) v (IH _ Hu) Hp).
Qed.

Lemma deriv_lang_2 r w :
  lang r w -> forall c s, w = String c s -> lang (Regex.deriv c r) s.
Proof.
  induction 1 as [|p c' Hp|r s' u v Hu IHu Hv IHv|r s' u Hu IHu|r s' u Hu IHu
                 |r u Hu IHu|r u v Hu IHu Hv IHv]; intros c s Heq; cbn.
  - discriminate.
  - injection Heq as -> <-. rewrite Hp. constructor.
  - apply append_eq_cons in Heq as [[-> ->]|(u' & -> & ->)].
    + apply nullable_lang in Hu. rewrite Hu. apply lang_Alt_r. auto.
    + specialize (IHu c u' eq_refl).
      destruct (Regex.nullable r); [apply lang_Alt_l|]; constructor; assumption.
  - apply lang_Alt_l. auto.
  - apply lang_Alt_r. auto.
  - rewrite <- (append_nil_r s). constructor; [auto|].
    apply lang_Alt_l. constructor.
  - apply append_eq_cons in Heq as [[-> ->]|(u' & -> & ->)].
    + exact (IHv c s eq_refl).
    + constructor; [auto|]. apply lang_Alt_r. exact Hv.
Qed.

(** [test] decides membership in the language of the pattern. *)
Lemma test_lang r s : Regex.test r s = true <-> lang r s.
Proof.
  revert r. induction s as [|c s IH]; intros r; cbn.
  - apply nullable_lang.
  - rewrite IH. split; [apply deriv_lang_1|].
    intros Hl. exact (deriv_lang_2 r _ Hl c s eq_refl).
Qed.

Lemma allChars_app p s t :
  allChars p (s +:+ t) = allChars p s && allChars p t.
Proof.
  induction s as [|c s IH]; [reflexivity|].
  rewrite append_cons. cbn [allChars]. rewrite IH, andb_assoc. reflexivity.
Qed.

Lemma lang_Plus_Class p w :
  lang (Regex.Plus (Regex.Class p)) w <-> w <> "" /\ allChars p w = true.
Proof.
  split.
  - remember (Regex.Plus (Regex.Class p)) as r eqn:Hr.
    induction 1 as [|p' c Hp|r s u v Hu IHu Hv IHv|r s u Hu IHu|r s u Hu IHu
                   |r u Hu IHu|r u v Hu IHu Hv IHv]; try discriminate.
    + injection Hr as ->. inversion Hu; subst. cbn.
      split; [discriminate|]. rewrite andb_true_r. assumption.
    + injection Hr as ->. inversion Hu; subst.
      rewrite append_cons, append_nil_l. cbn [allChars].
      destruct (IHv eq_refl) as [_ Hall]. split; [discriminate|].
      rewrite Hall, andb_true_r. assumption.
  - intros [Hne Hall]. induction w as [|c w IH]; [congruence|].
    cbn in Hall. apply andb_true_iff in Hall as [Hc Hw].
    destruct w as [|d w].
    + apply lang_Plus_one. constructor. exact Hc.
    + apply (lang_Plus_more _ (String c "") (String d w)).
      * constructor. exact Hc.
      * apply IH; [discriminate|exact Hw].
Qed.

Lemma lang_chr a w : lang (Regex.chr a) w <-> w = String a "".
Proof.
  unfold Regex.chr. split.
  - inversion 1 as [|? c Hc| | | | |]; subst.
    apply Ascii.eqb_eq in Hc. subst. reflexivity.
  - intros ->. constructor. apply Ascii.eqb_refl.
Qed.

Lemma lang_Cat_inv r s w :
  lang (Regex.Cat r s) w <-> exists u v, w = u +:+ v /\ lang r u /\ lang s v.
Proof.
  split.
  - inversion 1; subst. eauto.
  - intros (u & v & -> & Hu & Hv). constructor; assumption.
Qed.

(** X13. [validateInput] accepts exactly the pairs whose email is a
    non-empty run, an [@], a non-empty run, a dot and a non-empty run, the
    runs being free of white space and of [@], and whose password has at
    least 6 characters. *)
Theorem validateInput_accepts :
  forall em pw,
    validateInput em pw = true <->
    (exists l d1 d2,
        em = l +:+ "@" +:+ d1 +:+ "." +:+ d2 /\
        emailPart l /\ emailPart d1 /\ emailPart d2) /\
    (6 <= String.length pw)%nat.
Proof.
  intros em pw. unfold validateInput, passwordMinLength, emailPart.
  rewrite andb_true_iff, Nat.leb_le, test_lang. unfold emailRegex.
  rewrite lang_Cat_inv.
  setoid_rewrite lang_Cat_inv. setoid_rewrite lang_Cat_inv.
  setoid_rewrite lang_Cat_inv. setoid_rewrite lang_chr.
  setoid_rewrite lang_Plus_Class.
  split; intros [Hem Hpw]; (split; [|exact Hpw]).
  - destruct Hem as (l & ? & -> & Hl & ? & ? & -> & -> & ? & ? & -> & Hd1
                     & ? & d2 & -> & -> & Hd2).
    eauto 10.
  - destruct Hem as (l & d1 & d2 & -> & Hl & Hd1 & Hd2).
    exists l, ("@" +:+ d1 +:+ "." +:+ d2). split; [reflexivity|].
    split; [exact Hl|]. exists "@", (d1 +:+ "." +:+ d2).
    split; [reflexivity|]. split; [reflexivity|].
    exists d1, ("." +:+ d2). split; [reflexivity|]. split; [exact Hd1|].
    exists ".", d2. split; [reflexivity|]. split; [reflexivity|exact Hd2].
Qed.

Lemma occurrences_app a s t :
  occurrences a (s +:+ t) = (occurrences a s + occurrences a t)%nat.
Proof.
  induction s as [|c s IH]; [reflexivity|].
  rewrite append_cons. cbn [occurrences]. rewrite IH. lia.
Qed.

Lemma emailPart_chars w :
  allChars not_space_at w = true ->
  occurrences "@" w = 0%nat /\ allChars (fun c => negb (js_space c)) w = true.
Proof.
  induction w as [|c w IH]; cbn [allChars occurrences]; [auto|].
  intros [Hc Hw]%andb_true_iff. destruct (IH Hw) as [-> ->].
  unfold not_space_at in Hc. apply andb_true_iff in Hc as [Hs Hat].
  rewrite Hs. split; [|reflexivity].
  rewrite Ascii.eqb_sym. destruct (Ascii.eqb c "@"); [discriminate|reflexivity].
Qed.

(** X14. An email that [validateInput] accepts contains exactly one [@]
    and no white space, and the password accepted with it has at least 6
    characters. *)
Theorem accepted_email_shape :
  forall em pw,
    validateInput em pw = true ->
    occurrences "@" em = 1%nat /\
    allChars (fun c => negb (js_space c)) em = true /\
    (6 <= String.length pw)%nat.
Proof.
  intros em pw Hvalid.
  apply validateInput_accepts in Hvalid
    as [(l & d1 & d2 & -> & [_ Hl] & [_ Hd1] & [_ Hd2]) Hpw].
  apply emailPart_chars in Hl as [Hl1 Hl2].
  apply emailPart_chars in Hd1 as [Hd11 Hd12].
  apply emailPart_chars in Hd2 as [Hd21 Hd22].
  split; [|split; [|exact Hpw]].
  - rewrite !occurrences_app, Hl1, Hd11, Hd21. reflexivity.
  - rewrite !allChars_app, Hl2, Hd12, Hd22. reflexivity.
Qed.

(** ** The upload filter

    [path.extname] and [String.prototype.toLowerCase] belong to the
    platform: the filter is stated over them. *)

Inductive FilterResult : Type :=
| Accept
| Reject (message : string).

Definition anyChar : Regex.t := Regex.Class (fun _ => true).

Definition star (r : Regex.t) : Regex.t := Regex.Alt Regex.Eps (Regex.Plus r).

Fixpoint literal (s : string) : Regex.t :=
  match s with
  | EmptyString => Regex.Eps
  | String c s' => Regex.Cat (Regex.chr c) (literal s')
  end.

(** [test] of a pattern that is not anchored: some substring matches. *)
Definition search (r : Regex.t) (s : string) : bool :=
  Regex.test (Regex.Cat (star anyChar) (Regex.Cat r (star anyChar))) s.

(** [/mp4|webm|mps/] *)
Definition filetypes : Regex.t :=
  Regex.Alt (literal "mp4") (Regex.Alt (literal "webm") (literal "mps")).

(** The string contains [mp4], [webm] or [mps]. *)
Definition mentionsFiletype (s : string) : Prop :=
  exists pre w post,
    s = pre +:+ w +:+ post /\ (w = "mp4" \/ w = "webm" \/ w = "mps").

Section UploadFilter.

Variable path_extname : string -> string.
Variable toLowerCase : string -> string.

(** The [fileFilter] given to multer, with its call of [cb]. *)
Definition fileFilter (file : File) : FilterResult :=
  let extname :=
    search filetypes (toLowerCase (path_extname (originalname file))) in
  let mimetype := search filetypes (mimetype file) in
  if mimetype && extname then Accept
  else Reject "Only .mp4, .webm, and .mps files are allowed!".

Lemma lang_star_anyChar s : lang (star anyChar) s.
Proof.
  unfold star, anyChar. destruct s as [|c s]; [apply lang_Alt_l; constructor|].
  apply lang_Alt_r. apply lang_Plus_Class. split; [discriminate|].
  generalize (String c s). clear. intros s.
  induction s as [|c s IH]; [reflexivity|exact IH].
Qed.

Lemma lang_literal w s : lang (literal w) s <-> s = w.
Proof.
  revert s. induction w as [|c w IH]; intros s; cbn [literal].
  - split; [inversion 1; reflexivity|intros ->; constructor].
  - rewrite lang_Cat_inv. setoid_rewrite lang_chr. setoid_rewrite IH. split.
    + intros (u & v & -> & -> & ->). reflexivity.
    + intros ->. exists (String c ""), w. repeat split.
Qed.

Lemma search_filetypes s : search filetypes s = true <-> mentionsFiletype s.
Proof.
  unfold search, mentionsFiletype. rewrite test_lang, lang_Cat_inv.
  setoid_rewrite lang_Cat_inv. split.
  - intros (pre & ? & -> & _ & w & post & -> & Hw & _).
    exists pre, w, post. split; [reflexivity|].
    unfold filetypes in Hw.
    inversion Hw as [| | |? ? ? H1|? ? ? H2| |]; subst.
    + left. apply lang_literal. exact H1.
    + inversion H2 as [| | |? ? ? H3|? ? ? H4| |]; subst;
        [right; left|right; right]; apply lang_literal; assumption.
  - intros (pre & w & post & -> & Hw).
    exists pre, (w +:+ post). split; [reflexivity|].
    split; [apply lang_star_anyChar|].
    exists w, post. split; [reflexivity|]. split; [|apply lang_star_anyChar].
    unfold filetypes.
    destruct Hw as [-> | [-> | ->]];
      [apply lang_Alt_l|apply lang_Alt_r, lang_Alt_l|apply lang_Alt_r, lang_Alt_r];
      apply lang_literal; reflexivity.
Qed.

(** X15. The upload filter accepts a file exactly when its MIME type
    contains [mp4], [webm] or [mps] somewhere and so does the lower-cased
    extension of its original name; every other file is refused with the
    message "Only .mp4, .webm, and .mps files are allowed!". *)
Theorem fileFilter_accepts :
  forall file,
    (fileFilter file = Accept <->
     mentionsFiletype (mimetype file) /\
     mentionsFiletype (toLowerCase (path_extname (originalname file)))) /\
    (fileFilter file = Accept \/
     fileFilter file = Reject "Only .mp4, .webm, and .mps files are allowed!").
Proof.
  intros file. unfold fileFilter.
  rewrite <- !search_filetypes. split.
  - destruct (search filetypes (mimetype file)),
      (search filetypes (toLowerCase (path_extname (originalname file))));
      cbn; split; (discriminate || tauto || intros [? ?]; discriminate).
  - destruct (_ && _); [left|right]; reflexivity.
Qed.

End UploadFilter.

(** ** The further properties on the example database *)

Lemma emails_stay_unique_witness :
  NoDup (emails db0) /\
  NoDup
    (emails
       (run HexId.toString HexId.cast compare
          [(signupBob, None); (signupBob, None); (signupCarol, None)] db0).2) /\
  emails db0 `prefix_of`
    emails
      (run HexId.toString HexId.cast compare
         [(signupBob, None); (signupBob, None); (signupCarol, None)] db0).2.
Proof.
  assert (NoDup (emails db0)) as Hnd by apply NoDup_singleton.
  split; [exact Hnd|].
  exact (emails_stay_unique HexId.toString HexId.cast compare _ db0 Hnd).
Defined.

Lemma videoIds_stay_unique_witness :
  NoDup (videoIds db0) /\
  NoDup
    (videoIds
       (run HexId.toString HexId.cast compare
          [(PostUpload "Morning" "music" (Some clip) idB, None);
           (PostUpload "Again" "music" (Some clip) idB, None);
           (GetVideo "b2", None)] db0).2) /\
  videoIds db0 `prefix_of`
    videoIds
      (run HexId.toString HexId.cast compare
         [(PostUpload "Morning" "music" (Some clip) idB, None);
          (PostUpload "Again" "music" (Some clip) idB, None);
          (GetVideo "b2", None)] db0).2.
Proof.
  assert (NoDup (videoIds db0)) as Hnd by apply NoDup_singleton.
  split; [exact Hnd|].
  exact (videoIds_stay_unique HexId.toString HexId.cast compare _ db0 Hnd).
Defined.

Lemma stored_videos_immutable_witness :
  videos db0 !! 0%nat = Some episode /\
  exists v',
    videos
      (run HexId.toString HexId.cast compare
         [(GetVideo "a1", None);
          (PostUpload "Morning" "music" (Some clip) idB, None);
          (PostToggleFavorite "a1", Some aliceSession);
          (GetVideo "a1", None)] db0).2 !! 0%nat = Some v' /\
    sameAsset episode v'.
Proof.
  split; [reflexivity|].
  exact (stored_videos_immutable HexId.toString HexId.cast compare _ db0
           0%nat episode eq_refl).
Defined.

Lemma signups_counted_once_witness :
  stats db0 = Some emptyStats /\
  exists st',
    stats
      (run HexId.toString HexId.cast compare
         [(signupBob, None); (signupBob, None); (GetHome, None);
          (signupDave, None)] db0).2 = Some st' /\
    totalSignups st' =
      totalSignups emptyStats +
      successfulSignups HexId.toString HexId.cast compare
        [(signupBob, None); (signupBob, None); (GetHome, None);
         (signupDave, None)] db0 /\
    Z.of_nat
      (length
         (users
            (run HexId.toString HexId.cast compare
               [(signupBob, None); (signupBob, None); (GetHome, None);
                (signupDave, None)] db0).2)) =
      Z.of_nat (length (users db0)) +
      successfulSignups HexId.toString HexId.cast compare
        [(signupBob, None); (signupBob, None); (GetHome, None);
         (signupDave, None)] db0.
Proof.
  split; [reflexivity|].
  exact (signups_counted_once HexId.toString HexId.cast compare _ db0
           emptyStats eq_refl).
Defined.

Lemma histogram_sums_to_totalSignups_witness :
  stats db0 = Some emptyStats /\
  totalSignups emptyStats = sumCounts (signupHistory emptyStats) /\
  Forall (fun entry => 1 <= count entry) (signupHistory emptyStats) /\
  exists st',
    stats
      (run HexId.toString HexId.cast compare
         [(signupBob, None); (signupCarol, None); (signupDave, None)] db0).2
      = Some st' /\
    totalSignups st' = sumCounts (signupHistory st') /\
    Forall (fun entry => 1 <= count entry) (signupHistory st').
Proof.
  assert (Forall (fun entry => 1 <= count entry) (signupHistory emptyStats))
    as Hpos by constructor.
  split; [reflexivity|]. split; [reflexivity|]. split; [exact Hpos|].
  exact (proj1 (histogram_sums_to_totalSignups HexId.toString HexId.cast compare)
           _ db0 emptyStats eq_refl eq_refl Hpos).
Defined.

Lemma signup_then_login_witness :
  ok (response
        (post_signup "bob@pod.io" "secret1" "listener" "1terces" 1000 2000
           None db0)) = true /\
  compare "secret1" "1terces" = true /\
  compare "guess99" "1terces" = false /\
  post_login compare "bob@pod.io" "secret1" None
    (database
       (post_signup "bob@pod.io" "secret1" "listener" "1terces" 1000 2000
          None db0)) =
    (Reply 200 (JsonRole "listener"),
     Some {| s_email := "bob@pod.io"; s_role := "listener";
             s_favorites := Some [] |},
     database
       (post_signup "bob@pod.io" "secret1" "listener" "1terces" 1000 2000
          None db0)) /\
  post_login compare "bob@pod.io" "guess99" None
    (database
       (post_signup "bob@pod.io" "secret1" "listener" "1terces" 1000 2000
          None db0)) =
    (Reply 400 (JsonMessage "Invalid email or password."), None,
     database
       (post_signup "bob@pod.io" "secret1" "listener" "1terces" 1000 2000
          None db0)).
Proof.
  pose proof (signup_then_login (ObjectId := HexId.t) compare
                "bob@pod.io" "secret1" "listener" "1terces" 1000 2000
                None db0 eq_refl) as (Hgood & Hbad & _).
  split; [reflexivity|]. split; [reflexivity|]. split; [reflexivity|]. split.
  - exact (Hgood "secret1" None eq_refl).
  - exact (Hbad "guess99" None eq_refl).
Defined.

Lemma failed_request_changes_nothing_witness :
  stats db0 = Some emptyStats /\
  ok (response
        (handle HexId.toString HexId.cast compare
           (PostUpload "Again" "news" (Some clip) idA) None db0)) = false /\
  database
    (handle HexId.toString HexId.cast compare
       (PostUpload "Again" "news" (Some clip) idA) None db0) = db0 /\
  response
    (handle HexId.toString HexId.cast compare
       (PostSignup "bob" "secret1" "listener" "1terces" 1000 2000)
       None (set_stats None db0)) =
    Reply 400
      (JsonMessage "Invalid email or password (must be at least 6 characters).") /\
  database
    (handle HexId.toString HexId.cast compare
       (PostSignup "bob" "secret1" "listener" "1terces" 1000 2000)
       None (set_stats None db0)) = set_stats None db0.
Proof.
  pose proof (failed_request_changes_nothing HexId.toString HexId.cast compare)
    as [Hfail Hclient].
  split; [reflexivity|]. split; [reflexivity|]. split; [|split; [reflexivity|]].
  - exact (proj1 (Hfail (PostUpload "Again" "news" (Some clip) idA) None db0
                    emptyStats eq_refl eq_refl)).
  - refine (proj1 (Hclient
                     (PostSignup "bob" "secret1" "listener" "1terces" 1000 2000)
                     None (set_stats None db0) 400%nat _ eq_refl _)).
    split; [apply Nat.le_refl|]. apply Nat.leb_le. reflexivity.
Defined.

Lemma toggle_touches_one_user_witness :
  response
    (post_toggle_favorite HexId.toString HexId.cast (HexId.toString idA)
       (Some aliceSession) db0) = Reply 200 (JsonFavorites [idB; idA]) /\
  NoDup (favorites alice) /\
  exists i u,
    User_findOne (s_email aliceSession) db0 = Some (i, u) /\
    User_findOne (s_email aliceSession)
      (database
         (post_toggle_favorite HexId.toString HexId.cast (HexId.toString idA)
            (Some aliceSession) db0)) =
      Some (i, {| email := email u; password := password u; role := role u;
                  favorites := [idB; idA] |}) /\
    session
      (post_toggle_favorite HexId.toString HexId.cast (HexId.toString idA)
         (Some aliceSession) db0) =
      Some {| s_email := s_email aliceSession; s_role := s_role aliceSession;
              s_favorites := Some [idB; idA] |} /\
    (forall v, HexId.toString idA = HexId.toString v ->
               NoDup (favorites u) -> NoDup [idB; idA]).
Proof.
  split; [reflexivity|]. split; [apply NoDup_singleton|].
  exact (proj2 (proj2 (proj2
           (toggle_touches_one_user HexId.toString HexId.cast
              HexId_cast_toString (HexId.toString idA) aliceSession db0)))
           [idB; idA] eq_refl).
Defined.

Lemma listings_compose_witness :
  ok (response (post_upload "Morning" "music" (Some clip) idB None db0)) = true /\
  Video_find None "filename podcastName _id"
    (database (post_upload "Morning" "music" (Some clip) idB None db0)) =
    Video_find None "filename podcastName _id" db0 ++
    [[("_id", JObjectId idB); ("podcastName", JString "Morning");
      ("filename", JString "clip.webm")]] /\
  Video_find (Some "news") "filename podcastName _id"
    (database (post_upload "Morning" "music" (Some clip) idB None db0)) =
    Video_find (Some "news") "filename podcastName _id" db0.
Proof.
  pose proof (proj2 (proj2 (listings_compose db0))
                "Morning" "music" clip idB None eq_refl) as (Hall & _ & Hother).
  split; [reflexivity|]. split; [exact Hall|].
  refine (Hother "news" _). discriminate.
Defined.

Lemma missing_stats_partial_effects_witness :
  stats (set_stats None db0) = None /\
  validateInput "bob@pod.io" "secret1" = true /\
  User_findOne "bob@pod.io" (set_stats None db0) = None /\
  response
    (post_signup "bob@pod.io" "secret1" "listener" "1terces" 1000 2000 None
       (set_stats None db0)) =
    Reply 500 (JsonMessage
      "Error creating user. This email might already be registered.") /\
  users
    (database
       (post_signup "bob@pod.io" "secret1" "listener" "1terces" 1000 2000 None
          (set_stats None db0))) =
    users (set_stats None db0) ++
    [{| email := "bob@pod.io"; password := "1terces"; role := "listener";
        favorites := [] |}] /\
  Video_findById idA (set_stats None db0) = Some (0%nat, episode) /\
  response (get_video HexId.cast (HexId.toString idA) None (set_stats None db0)) =
    Reply 500 (Text "Error retrieving video.") /\
  viewsOf idA
    (database
       (get_video HexId.cast (HexId.toString idA) None (set_stats None db0))) =
    Some (views episode + 1).
Proof.
  pose proof (missing_stats_partial_effects HexId.toString HexId.cast
                HexId_cast_toString) as (Hsignup & Hfetch & _).
  assert ("1terces" <> "") as Hhp by discriminate.
  assert ("listener" <> "") as Hrl by discriminate.
  pose proof (Hsignup "bob@pod.io" "secret1" "listener" "1terces" 1000 2000
                None (set_stats None db0) eq_refl eq_refl Hhp Hrl eq_refl)
    as (Hresp & Husers & _).
  pose proof (Hfetch idA None (set_stats None db0) 0%nat episode eq_refl eq_refl)
    as (Hresp' & Hviews).
  split; [reflexivity|]. split; [reflexivity|]. split; [reflexivity|].
  split; [exact Hresp|]. split; [exact Husers|]. split; [reflexivity|].
  split; [exact Hresp'|exact Hviews].
Defined.

Lemma views_counted_in_sequence_witness :
  stats db0 = Some emptyStats /\
  ok (response (get_video HexId.cast "a1" None db0)) = true /\
  (exists o i v v' st',
      HexId.cast "a1" = Some o /\
      Video_findById o db0 = Some (i, v) /\
      videos (database (get_video HexId.cast "a1" None db0)) !! i = Some v' /\
      views v' = views v + 1 /\
      sameAsset v v' /\
      (forall j, j <> i ->
          videos (database (get_video HexId.cast "a1" None db0)) !! j =
          videos db0 !! j) /\
      length (videos (database (get_video HexId.cast "a1" None db0))) =
        length (videos db0) /\
      stats (database (get_video HexId.cast "a1" None db0)) = Some st' /\
      totalViews st' = totalViews emptyStats + 1 /\
      totalSignups st' = totalSignups emptyStats /\
      signupHistory st' = signupHistory emptyStats) /\
  (exists st',
      stats
        (run HexId.toString HexId.cast compare
           [(GetVideo "a1", None); (GetHome, None); (GetVideo "b2", None);
            (GetVideo "a1", None)] db0).2 = Some st' /\
      totalViews st' =
        successfulViews HexId.toString HexId.cast compare
          [(GetVideo "a1", None); (GetHome, None); (GetVideo "b2", None);
           (GetVideo "a1", None)] db0).
Proof.
  pose proof (views_counted_in_sequence HexId.toString HexId.cast compare)
    as (Hfetch & _ & _ & Hrun & _).
  split; [reflexivity|]. split; [reflexivity|]. split.
  - exact (Hfetch "a1" None db0 emptyStats eq_refl eq_refl).
  - exact (Hrun _ db0 eq_refl).
Defined.

Lemma views_count_fetches_witness :
  NoDup (videoIds db0) /\
  stats db0 = Some emptyStats /\
  videos db0 !! 0%nat = Some episode /\
  exists v',
    videos
      (run HexId.toString HexId.cast compare
         [(GetVideo "a1", None); (GetVideo "b2", None); (GetHome, None);
          (GetVideo "A1", None)] db0).2 !! 0%nat = Some v' /\
    views v' =
      views episode +
      fetches HexId.toString HexId.cast compare idA
        [(GetVideo "a1", None); (GetVideo "b2", None); (GetHome, None);
         (GetVideo "A1", None)] db0.
Proof.
  assert (NoDup (videoIds db0)) as Hnd by apply NoDup_singleton.
  split; [exact Hnd|]. split; [reflexivity|]. split; [reflexivity|].
  exact (views_count_fetches HexId.toString HexId.cast compare _ db0
           emptyStats 0%nat episode Hnd eq_refl eq_refl).
Defined.

Lemma totalViews_is_videos_plus_home_witness :
  stats db0 = Some emptyStats /\
  exists st',
    stats
      (run HexId.toString HexId.cast compare
         [(GetVideo "a1", None); (GetHome, None); (GetHome, None)] db0).2
      = Some st' /\
    totalViews st' - totalViews emptyStats =
      (sumViews
         (run HexId.toString HexId.cast compare
            [(GetVideo "a1", None); (GetHome, None); (GetHome, None)] db0).2
       - sumViews db0)
      + homeVisits HexId.toString HexId.cast compare
          [(GetVideo "a1", None); (GetHome, None); (GetHome, None)] db0.
Proof.
  split; [reflexivity|].
  exact (totalViews_is_videos_plus_home HexId.toString HexId.cast compare _ db0
           emptyStats eq_refl).
Defined.

Lemma accepted_email_shape_witness :
  validateInput "bob@mail.pod.io" "secret1" = true /\
  occurrences "@" "bob@mail.pod.io" = 1%nat /\
  allChars (fun c => negb (js_space c)) "bob@mail.pod.io" = true /\
  (6 <= String.length "secret1")%nat.
Proof.
  split; [reflexivity|].
  exact (accepted_email_shape "bob@mail.pod.io" "secret1" eq_refl).
Defined.
